(** * Deployment scripts and user controller of the full-stack template

    A shallow embedding of

    - [scripts/deploy-kubernetes.sh] (the Rollout Controller),
    - [scripts/build-docker.sh] (the Build Step),
    - the Docker/Kubernetes verification script,
    - [backend/app/controllers/user.controller.js],

    followed by the properties proved about them.

    The shell scripts are embedded in a small monad [Sh] that threads the
    state of the machine the script runs on, the value of [$?], the
    commands that were executed and the lines the script printed.  The
    machine itself (the cluster, the Docker daemon, the file system) is
    an arbitrary transition system answering each command with an exit
    status and some text on standard output.

    The controller is embedded over [gmap string JsVal] objects and an
    in-memory collection of documents. *)

From Stdlib Require Import ZArith.
From stdpp Require Import gmap strings list fin_maps.

Set Warnings "-register-all".

(* ===================================================================== *)
(** * Shell: commands, machines and the script monad                      *)
(* ===================================================================== *)

Module Sh.

(** A simple command is its argument vector; a pipeline [c1 | c2] is
    answered by the machine as a whole (its status is that of [c2]). *)
Inductive Cmd : Type :=
| Simple (argv : list string)
| Pipe (producer consumer : Cmd).

#[global] Instance Cmd_eq_dec : EqDecision Cmd.
Proof. solve_decision. Defined.

(** What a command gives back: exit status and standard output. *)
Record Result : Type := { status : Z; stdout : string }.

(** The machine a script runs on. *)
Record Machine : Type :=
  { world : Type;
    exec : Cmd -> world -> Result * world }.

(** A line on the script's standard output: either printed by the script
    itself ([echo]) or the output of a command that was not redirected. *)
Inductive Line : Type :=
| Said (text : string)
| Passed (c : Cmd) (text : string).

(** State of one run of a script: the machine, [$?], the commands run so
    far with their statuses, the output so far (both oldest first). *)
Record St (W : Type) : Type :=
  { env : W;
    rc : Z;                      (* the value of [$?] *)
    calls : list (Cmd * Z);
    out : list Line }.
Arguments env {W} _.
Arguments rc {W} _.
Arguments calls {W} _.
Arguments out {W} _.

(** A script either goes on with a value or has left with [exit]. *)
Inductive Ctl (A : Type) : Type :=
| Cont (a : A)
| Exit (code : Z).
Arguments Cont {A} _.
Arguments Exit {A} _.

Definition Sh (M : Machine) (A : Type) : Type :=
  St (world M) -> Ctl A * St (world M).

Section Monad.
Context {M : Machine}.

Definition ret {A} (a : A) : Sh M A := fun s => (Cont a, s).

Definition bind {A B} (m : Sh M A) (k : A -> Sh M B) : Sh M B :=
  fun s => match m s with
           | (Cont a, s') => k a s'
           | (Exit c, s') => (Exit c, s')
           end.

(** [echo text] *)
Definition echo (text : string) : Sh M unit :=
  fun s => (Cont tt,
            {| env := env s; rc := 0; calls := calls s;
               out := out s ++ [Said text] |}).

(** [exit n] *)
Definition exit_with {A} (n : Z) : Sh M A := fun s => (Exit n, s).

(** [exit] without operand leaves with the status of the last command. *)
Definition exit_last {A} : Sh M A := fun s => (Exit (rc s), s).

(** Run a command whose output goes to the terminal; gives its status. *)
Definition call (c : Cmd) : Sh M Z :=
  fun s => let (r, w) := exec M c (env s) in
           (Cont (status r),
            {| env := w; rc := status r;
               calls := calls s ++ [(c, status r)];
               out := out s ++ [Passed c (stdout r)] |}).

(** Run a command with its output discarded ([&> /dev/null]). *)
Definition call_quiet (c : Cmd) : Sh M Z :=
  fun s => let (r, w) := exec M c (env s) in
           (Cont (status r),
            {| env := w; rc := status r;
               calls := calls s ++ [(c, status r)];
               out := out s |}).

(** Command substitution [$(c)]: gives the captured output. *)
Definition capture (c : Cmd) : Sh M string :=
  fun s => let (r, w) := exec M c (env s) in
           (Cont (stdout r),
            {| env := w; rc := status r;
               calls := calls s ++ [(c, status r)];
               out := out s |}).

(** A command at statement level under [set -e]: a non-zero status
    leaves the script with that status. *)
Definition errexit (m : Sh M Z) : Sh M unit :=
  bind m (fun st => if (st =? 0)%Z then ret tt else exit_with st).

(** [m || alt] *)
Definition or_else (m : Sh M Z) (alt : Sh M unit) : Sh M unit :=
  bind m (fun st => if (st =? 0)%Z then ret tt else alt).

(** The builtin [true]. *)
Definition true_ : Sh M unit :=
  fun s => (Cont tt,
            {| env := env s; rc := 0; calls := calls s; out := out s |}).

End Monad.

Declare Scope sh_scope.
Delimit Scope sh_scope with sh.
Notation "x ← y ; z" := (bind y (fun x => z))
  (at level 20, y at level 100, z at level 200, only parsing) : sh_scope.
Notation "x ;; z" := (bind x (fun _ => z))
  (at level 100, z at level 200, only parsing, right associativity)
  : sh_scope.

(** The outcome of a whole run. *)
Record Outcome (W : Type) : Type :=
  { finished : bool;           (* the last line of the script was reached *)
    code : Z;                  (* exit status of the script *)
    trace : list (Cmd * Z);    (* commands run, with their statuses *)
    output : list Line;        (* what the script wrote *)
    final : W }.               (* the machine afterwards *)
Arguments finished {W} _.
Arguments code {W} _.
Arguments trace {W} _.
Arguments output {W} _.
Arguments final {W} _.

Definition start {W} (w : W) : St W :=
  {| env := w; rc := 0; calls := []; out := [] |}.

Definition run {M : Machine} (script : Sh M unit) (w : world M)
  : Outcome (world M) :=
  match script (start w) with
  | (Cont _, s) =>
      {| finished := true; code := rc s; trace := calls s;
         output := out s; final := env s |}
  | (Exit c, s) =>
      {| finished := false; code := c; trace := calls s;
         output := out s; final := env s |}
  end.

(** The statuses with which a command was run, oldest first. *)
Definition statuses (c : Cmd) (t : list (Cmd * Z)) : list Z :=
  omap (fun x => if decide (fst x = c) then Some (snd x) else None) t.

(** The lines a script printed itself. *)
Definition said (l : list Line) : list string :=
  omap (fun x => match x with Said t => Some t | Passed _ _ => None end) l.

(** What a part of a script does, whatever the state it starts in: how
    it ends, the commands it runs and the lines it writes. *)
Definition performs {M : Machine} {A} (m : Sh M A)
    (Q : Ctl A -> list (Cmd * Z) -> list Line -> Prop) : Prop :=
  forall w l cs os, exists res w' l' cs' os',
    m {| env := w; rc := l; calls := cs; out := os |}
    = (res, {| env := w'; rc := l'; calls := cs ++ cs'; out := os ++ os' |})
    /\ Q res cs' os'.

(** States the machine can get to by running commands. *)
Inductive reach {M : Machine} : world M -> world M -> Prop :=
| reach_here w : reach w w
| reach_next w c w' : reach (snd (exec M c w)) w' -> reach w w'.

(** A recording fake machine: each command is answered from a fixed
    table, and the machine keeps the commands it accepted. *)
Record Fake : Type :=
  { fails : Cmd -> bool;
    prints : Cmd -> string }.

Definition fake_exec (F : Fake) (c : Cmd) (w : list Cmd)
  : Result * list Cmd :=
  if fails F c
  then ({| status := 1; stdout := prints F c |}, w)
  else ({| status := 0; stdout := prints F c |}, w ++ [c]).

Definition fake (F : Fake) : Machine :=
  {| world := list Cmd; exec := fake_exec F |}.

(** The fake machine on which exactly the commands of [bad] fail, and
    nothing is ever printed. *)
Definition failing (bad : list Cmd) : Fake :=
  {| fails := fun c => bool_decide (c ∈ bad); prints := fun _ => "" |}.

End Sh.

(* ===================================================================== *)
(** * scripts/deploy-kubernetes.sh                                         *)
(* ===================================================================== *)

Module Deploy.
Import Sh.
#[local] Open Scope sh_scope.

Definition command_v (tool : string) : Cmd := Simple ["command"; "-v"; tool].
Definition cd (dir : string) : Cmd := Simple ["cd"; dir].
Definition kubectl_apply (file : string) : Cmd :=
  Simple ["kubectl"; "apply"; "-f"; file].

(** [kubectl wait --for=condition=ready pod -l app=mongodb
      -n fullstack-app --timeout=120s] *)
Definition kubectl_wait_mongodb : Cmd :=
  Simple ["kubectl"; "wait"; "--for=condition=ready"; "pod";
          "-l"; "app=mongodb"; "-n"; "fullstack-app"; "--timeout=120s"].

(** The script, line by line.  [here] is the value of
    [$(dirname "$0")], the directory the script was started from. *)
Definition script {M : Machine} (here : string) : Sh M unit :=
  (* set -e *)
  echo "🚀 Starting Kubernetes Deployment..." ;;
  (* Check if kubectl is available *)
  missing ← call_quiet (command_v "kubectl") ;
  (if (missing =? 0)%Z then ret tt
   else
     echo "❌ kubectl is not installed. Please install kubectl first." ;;
     exit_with 1) ;;
  (* Navigate to kubernetes directory *)
  errexit (call (cd (here +:+ "/../kubernetes"))) ;;
  (* Apply manifests in order *)
  echo "📦 Creating namespace..." ;;
  errexit (call (kubectl_apply "namespace.yaml")) ;;
  echo "🔐 Creating secrets..." ;;
  errexit (call (kubectl_apply "secret.yaml")) ;;
  echo "⚙️  Creating configmap..." ;;
  errexit (call (kubectl_apply "configmap.yaml")) ;;
  echo "🍃 Deploying MongoDB..." ;;
  errexit (call (kubectl_apply "mongodb-deployment.yaml")) ;;
  echo "⏳ Waiting for MongoDB to be ready..." ;;
  or_else (call kubectl_wait_mongodb) true_ ;;
  echo "🔧 Deploying backend..." ;;
  errexit (call (kubectl_apply "backend-deployment.yaml")) ;;
  echo "🎨 Deploying frontend..." ;;
  errexit (call (kubectl_apply "frontend-deployment.yaml")) ;;
  echo "🌐 Deploying ingress (if available)..." ;;
  or_else (call (kubectl_apply "ingress.yaml"))
          (echo "⚠️  Ingress not applied (may need ingress controller)") ;;
  echo "" ;;
  echo "✅ Deployment complete!" ;;
  echo "" ;;
  echo "📊 Check deployment status:" ;;
  echo "   kubectl get pods -n fullstack-app" ;;
  echo "   kubectl get svc -n fullstack-app" ;;
  echo "" ;;
  echo "🔍 View logs:" ;;
  echo "   kubectl logs -f deployment/backend -n fullstack-app" ;;
  echo "   kubectl logs -f deployment/frontend -n fullstack-app" ;;
  echo "" ;;
  echo "🌍 Access application:" ;;
  echo "   kubectl port-forward -n fullstack-app svc/frontend-service 3000:80" ;;
  echo "   Then open http://localhost:3000".

Definition deploy {M : Machine} (here : string) (w : world M)
  : Outcome (world M) :=
  run (script here) w.

(** ** Vocabulary of the specification *)

(** Terminal states of a run. *)
Inductive Terminal : Type := Complete | Aborted.

Definition terminal {W} (r : Outcome W) : Terminal :=
  if finished r then Complete else Aborted.

(** The resources of the Manifest Set and the files that describe them. *)
Inductive Resource : Type :=
| Namespace
| SecretEntry
| ConfigEntry
| StatefulUnit        (* MongoDB *)
| BackendUnit
| FrontendUnit
| RoutingRule.

Definition manifest (r : Resource) : string :=
  match r with
  | Namespace => "namespace.yaml"
  | SecretEntry => "secret.yaml"
  | ConfigEntry => "configmap.yaml"
  | StatefulUnit => "mongodb-deployment.yaml"
  | BackendUnit => "backend-deployment.yaml"
  | FrontendUnit => "frontend-deployment.yaml"
  | RoutingRule => "ingress.yaml"
  end.

Definition dependency_order : list Resource :=
  [Namespace; SecretEntry; ConfigEntry; StatefulUnit;
   BackendUnit; FrontendUnit; RoutingRule].

(** The file of a [kubectl apply -f file] command. *)
Definition applied_file (c : Cmd) : option string :=
  match c with
  | Simple [tool; verb; flag; file] =>
      if bool_decide (tool = "kubectl" /\ verb = "apply" /\ flag = "-f")
      then Some file else None
  | _ => None
  end.

(** The manifests submitted during a run, in the order of submission. *)
Definition submitted (t : list (Cmd * Z)) : list string :=
  omap (fun x => applied_file (fst x)) t.

(** The script marks its warnings with a warning sign. *)
Definition is_warning (line : string) : bool := String.prefix "⚠" line.

Definition warnings (l : list Line) : list string :=
  List.filter is_warning (said l).

Definition routing_warning : string :=
  "⚠️  Ingress not applied (may need ingress controller)".

(** The resources whose rejection is fatal, and the place of each
    resource in the order of submission. *)
Definition required : list Resource :=
  [Namespace; SecretEntry; ConfigEntry; StatefulUnit].

Definition rank (r : Resource) : nat :=
  match r with
  | Namespace => 0
  | SecretEntry => 1
  | ConfigEntry => 2
  | StatefulUnit => 3
  | BackendUnit => 4
  | FrontendUnit => 5
  | RoutingRule => 6
  end.



(** The commands of the script, in the order in which it runs them. *)
Definition steps (here : string) : list Cmd :=
  [command_v "kubectl"; cd (here +:+ "/../kubernetes");
   kubectl_apply "namespace.yaml"; kubectl_apply "secret.yaml";
   kubectl_apply "configmap.yaml"; kubectl_apply "mongodb-deployment.yaml";
   kubectl_wait_mongodb;
   kubectl_apply "backend-deployment.yaml";
   kubectl_apply "frontend-deployment.yaml";
   kubectl_apply "ingress.yaml"].

(** The line that announces success. *)
Definition complete_banner : string := "✅ Deployment complete!".

End Deploy.

(* ===================================================================== *)
(** * scripts/build-docker.sh                                              *)
(* ===================================================================== *)

Module Build.
Import Sh.
#[local] Open Scope sh_scope.

(** The two images the script builds. *)
Inductive ServiceUnit : Type := Backend | Frontend.

Definition docker_build (u : ServiceUnit) : Cmd :=
  match u with
  | Backend =>
      Simple ["docker"; "build"; "-t"; "fullstack-app-backend:latest";
              "./backend"]
  | Frontend =>
      Simple ["docker"; "build"; "-t"; "fullstack-app-frontend:latest";
              "--build-arg"; "REACT_APP_BASE_URL=http://localhost:3001";
              "./frontend"]
  end.



(** [docker images | grep fullstack-app] *)
Definition list_images : Cmd :=
  Pipe (Simple ["docker"; "images"]) (Simple ["grep"; "fullstack-app"]).

Definition script {M : Machine} : Sh M unit :=
  (* set -e *)
  echo "🐳 Building Docker Images..." ;;
  (* Build backend *)
  echo "📦 Building backend image..." ;;
  errexit (call (docker_build Backend)) ;;
  (* Build frontend *)
  echo "📦 Building frontend image..." ;;
  errexit (call (docker_build Frontend)) ;;
  echo "" ;;
  echo "✅ Build complete!" ;;
  echo "" ;;
  echo "📋 Available images:" ;;
  errexit (call list_images) ;;
  echo "" ;;
  echo "🚀 To start with docker-compose:" ;;
  echo "   docker-compose up" ;;
  echo "" ;;
  echo "📤 To load images into minikube:" ;;
  echo "   minikube image load fullstack-app-backend:latest" ;;
  echo "   minikube image load fullstack-app-frontend:latest" ;;
  echo "" ;;
  echo "📤 To load images into kind:" ;;
  echo "   kind load docker-image fullstack-app-backend:latest" ;;
  echo "   kind load docker-image fullstack-app-frontend:latest".

Definition build_images {M : Machine} (w : world M) : Outcome (world M) :=
  run script w.



(** The commands of the script, in the order in which it runs them. *)
Definition steps : list Cmd :=
  [docker_build Backend; docker_build Frontend; list_images].

(** The line that announces success. *)
Definition complete_banner : string := "✅ Build complete!".

End Build.

(* ===================================================================== *)
(** * The Docker and Kubernetes verification script                       *)
(* ===================================================================== *)

Module Verify.
Import Sh.
#[local] Open Scope sh_scope.

(** Colors for output *)
Definition GREEN : string := "\033[0;32m".
Definition RED : string := "\033[0;31m".
Definition YELLOW : string := "\033[1;33m".
Definition NC : string := "\033[0m".

(** The three kinds of marked lines, as given to [echo -e]. *)
Definition pass (msg : string) : string := GREEN +:+ "✓" +:+ NC +:+ msg.
Definition fail (msg : string) : string := RED +:+ "✗" +:+ NC +:+ msg.
Definition warn (msg : string) : string := YELLOW +:+ "⚠" +:+ NC +:+ msg.

Definition rule : string := "━━━━━━━━━━━━━━━━━━━━━━━━━━━━━━━━━━━━━━━━".
Definition frame : string := "==========================================".

Definition command_v (tool : string) : Cmd := Simple ["command"; "-v"; tool].
Definition docker (args : list string) : Cmd := Simple ("docker" :: args).
Definition kubectl (args : list string) : Cmd := Simple ("kubectl" :: args).
Definition grep (args : list string) : Cmd := Simple ("grep" :: args).
Definition head_n (n : string) : Cmd := Simple ["head"; n].
(** [[ -f path ]] and [[ -d path ]] *)
Definition test_f (path : string) : Cmd := Simple ["["; "-f"; path; "]"].
Definition test_d (path : string) : Cmd := Simple ["["; "-d"; path; "]"].
Definition cd (dir : string) : Cmd := Simple ["cd"; dir].

Definition docker_info : Cmd := docker ["info"].
Definition cluster_info : Cmd := kubectl ["cluster-info"].

(** [[ ! -z "$v" ]] *)
Definition nonempty (v : string) : bool := negb (String.eqb v "").

Section Script.
Context {M : Machine}.

Definition header : Sh M unit :=
  echo frame ;;
  echo "🐳 Docker & ☸️ Kubernetes Verification" ;;
  echo frame ;;
  echo "".

(** # Check Docker *)
Definition check_docker : Sh M unit :=
  echo rule ;;
  echo "1. Checking Docker Installation" ;;
  echo rule ;;
  st ← call_quiet (command_v "docker") ;
  if (st =? 0)%Z then
    echo (pass " Docker is installed") ;;
    _ ← call (docker ["--version"]) ;
    ret tt
  else
    echo (fail " Docker is NOT installed") ;;
    exit_with 1.

(** # Check Docker Compose *)
Definition check_compose : Sh M unit :=
  echo "" ;;
  echo "Checking Docker Compose..." ;;
  plugin ← call_quiet (docker ["compose"; "version"]) ;
  found ← (if (plugin =? 0)%Z then ret 0%Z
            else call_quiet (command_v "docker-compose")) ;
  if (found =? 0)%Z then
    echo (pass " Docker Compose is available") ;;
    or_else (call (docker ["compose"; "version"]))
            (_ ← call (Simple ["docker-compose"; "--version"]) ; ret tt)
  else
    echo (fail " Docker Compose is NOT available").

(** # Check Docker Daemon *)
Definition check_daemon : Sh M unit :=
  echo "" ;;
  echo "Checking Docker Daemon..." ;;
  st ← call_quiet docker_info ;
  if (st =? 0)%Z then
    echo (pass " Docker daemon is running")
  else
    echo (fail " Docker daemon is NOT running") ;;
    echo "   Start Docker service: sudo systemctl start docker".

(** # Check Docker Containers *)
Definition check_containers : Sh M unit :=
  echo "" ;;
  echo rule ;;
  echo "2. Checking Docker Containers" ;;
  echo rule ;;
  CONTAINERS ← capture (docker ["ps"; "-a"; "--format"; "{{.Names}}"]) ;
  if nonempty CONTAINERS then
    echo "Running containers:" ;;
    _ ← call (docker ["ps"; "--format";
                      "table {{.Names}}\t{{.Status}}\t{{.Ports}}"]) ;
    echo "" ;;
    echo "All containers:" ;;
    _ ← call (docker ["ps"; "-a"; "--format";
                      "table {{.Names}}\t{{.Status}}\t{{.Ports}}"]) ;
    ret tt
  else
    echo (warn " No containers found").

(** # Check Docker Images *)
Definition check_images : Sh M unit :=
  echo "" ;;
  echo rule ;;
  echo "3. Checking Docker Images" ;;
  echo rule ;;
  IMAGES ← capture (Pipe (docker ["images"; "--format"; "{{.Repository}}"])
                         (grep ["-E"; "fullstack|mongo"])) ;
  if nonempty IMAGES then
    echo "Project images:" ;;
    _ ← call (Pipe (docker ["images"])
                   (grep ["-E"; "REPOSITORY|fullstack|mongo"])) ;
    (* Check if backend image exists *)
    backend ← call (Pipe (docker ["images"])
                         (grep ["-q"; "fullstack-app-backend"])) ;
    (if (backend =? 0)%Z then
       echo (pass " Backend image exists: fullstack-app-backend:latest")
     else
       echo (warn " Backend image NOT found. Build with: docker build -t fullstack-app-backend:latest ./backend")) ;;
    (* Check if frontend image exists *)
    frontend ← call (Pipe (docker ["images"])
                          (grep ["-q"; "fullstack-app-frontend"])) ;
    if (frontend =? 0)%Z then
      echo (pass " Frontend image exists: fullstack-app-frontend:latest")
    else
      echo (warn " Frontend image NOT found")
  else
    echo (warn " No project images found").

(** # Check Docker Volumes *)
Definition check_volumes : Sh M unit :=
  echo "" ;;
  echo rule ;;
  echo "4. Checking Docker Volumes" ;;
  echo rule ;;
  VOLUMES ← capture (Pipe (docker ["volume"; "ls"; "--format"; "{{.Name}}"])
                          (grep ["-E"; "mongodb|fullstack"])) ;
  if nonempty VOLUMES then
    echo "Project volumes:" ;;
    _ ← call (Pipe (docker ["volume"; "ls"])
                   (grep ["-E"; "DRIVER|mongodb|fullstack"])) ;
    ret tt
  else
    echo (warn " No project volumes found").

(** # Check Docker Networks *)
Definition check_networks : Sh M unit :=
  echo "" ;;
  echo rule ;;
  echo "5. Checking Docker Networks" ;;
  echo rule ;;
  NETWORKS ← capture (Pipe (docker ["network"; "ls"; "--format"; "{{.Name}}"])
                           (grep ["-E"; "app|fullstack"])) ;
  if nonempty NETWORKS then
    echo "Project networks:" ;;
    _ ← call (Pipe (docker ["network"; "ls"])
                   (grep ["-E"; "NETWORK|app|fullstack"])) ;
    ret tt
  else
    echo (warn " No project networks found").

(** # Check Kubernetes *)
Definition check_kubectl : Sh M unit :=
  echo "" ;;
  echo rule ;;
  echo "6. Checking Kubernetes Installation" ;;
  echo rule ;;
  st ← call_quiet (command_v "kubectl") ;
  if (st =? 0)%Z then
    echo (pass " kubectl is installed") ;;
    or_else (call (kubectl ["version"; "--client"; "--short"]))
            (_ ← call (kubectl ["version"; "--client"]) ; ret tt)
  else
    echo (fail " kubectl is NOT installed") ;;
    echo "   Install: https://kubernetes.io/docs/tasks/tools/".

(** # Check Kubernetes Cluster *)
Definition check_cluster : Sh M unit :=
  echo "" ;;
  echo "Checking Kubernetes Cluster Connection..." ;;
  st ← call_quiet cluster_info ;
  if (st =? 0)%Z then
    echo (pass " Kubernetes cluster is accessible") ;;
    _ ← call (Pipe cluster_info (head_n "-1")) ;
    (* Check nodes *)
    echo "" ;;
    echo "Cluster nodes:" ;;
    or_else (call (kubectl ["get"; "nodes"]))
            (echo "  Unable to get nodes") ;;
    (* Check namespaces *)
    echo "" ;;
    echo "Checking namespaces..." ;;
    ns ← call_quiet (kubectl ["get"; "namespace"; "fullstack-app"]) ;
    if (ns =? 0)%Z then
      echo (pass " Namespace 'fullstack-app' exists") ;;
      echo "" ;;
      echo "Resources in fullstack-app namespace:" ;;
      or_else (call (kubectl ["get"; "all"; "-n"; "fullstack-app"]))
              (echo "  No resources found")
    else
      echo (warn " Namespace 'fullstack-app' does NOT exist") ;;
      echo "   Create with: kubectl apply -f kubernetes/namespace.yaml"
  else
    echo (fail " Kubernetes cluster is NOT accessible") ;;
    echo "" ;;
    echo "Options:" ;;
    echo "  1. Install minikube: https://minikube.sigs.k8s.io/docs/start/" ;;
    echo "  2. Install kind: https://kind.sigs.k8s.io/docs/user/quick-start/" ;;
    echo "  3. Use cloud provider (GKE, EKS, AKS)".

(** # Check Kubernetes Context *)
Definition check_context : Sh M unit :=
  st ← call_quiet (command_v "kubectl") ;
  if (st =? 0)%Z then
    echo "" ;;
    echo "Current Kubernetes context:" ;;
    or_else (call (kubectl ["config"; "current-context"]))
            (echo "  No context configured")
  else ret tt.

(** # Check minikube (if installed) *)
Definition check_minikube : Sh M unit :=
  echo "" ;;
  echo rule ;;
  echo "7. Checking Local Kubernetes Options" ;;
  echo rule ;;
  st ← call_quiet (command_v "minikube") ;
  if (st =? 0)%Z then
    echo (pass " minikube is installed") ;;
    up ← call_quiet (Simple ["minikube"; "status"]) ;
    if (up =? 0)%Z then
      echo "  minikube status:" ;;
      _ ← call (Pipe (Simple ["minikube"; "status"]) (head_n "-3")) ;
      ret tt
    else
      echo ("  " +:+ warn " minikube is not running") ;;
      echo "  Start with: minikube start"
  else
    echo (warn " minikube is NOT installed").

Definition check_kind : Sh M unit :=
  st ← call_quiet (command_v "kind") ;
  if (st =? 0)%Z then
    echo (pass " kind is installed") ;;
    KIND_CLUSTERS ← capture (Simple ["kind"; "get"; "clusters"]) ;
    if nonempty KIND_CLUSTERS then
      echo ("  kind clusters: " +:+ KIND_CLUSTERS)
    else
      echo ("  " +:+ warn " No kind clusters found") ;;
      echo "  Create with: kind create cluster"
  else
    echo (warn " kind is NOT installed").

(** # Summary *)
Definition summary : Sh M unit :=
  echo "" ;;
  echo rule ;;
  echo "📊 Summary" ;;
  echo rule ;;
  (* Docker Status *)
  daemon ← call_quiet docker_info ;
  ready ← (if (daemon =? 0)%Z then call_quiet (command_v "docker")
            else ret daemon) ;
  (if (ready =? 0)%Z then
     echo (pass " Docker: Ready")
   else
     echo (fail " Docker: Not Ready")) ;;
  (* Kubernetes Status *)
  cluster ← call_quiet cluster_info ;
  if (cluster =? 0)%Z then
    echo (pass " Kubernetes: Ready")
  else
    echo (warn " Kubernetes: Not Available (optional)").

(** # Project Files Check *)
Definition check_files (here : string) : Sh M unit :=
  echo "" ;;
  echo rule ;;
  echo "8. Checking Project Files" ;;
  echo rule ;;
  moved ← call (cd (here +:+ "/..")) ;
  (if (moved =? 0)%Z then ret tt else exit_last) ;;
  compose ← call_quiet (test_f "docker-compose.yml") ;
  (if (compose =? 0)%Z then
     echo (pass " docker-compose.yml exists")
   else
     echo (fail " docker-compose.yml missing")) ;;
  backend ← call_quiet (test_f "backend/Dockerfile") ;
  (if (backend =? 0)%Z then
     echo (pass " backend/Dockerfile exists")
   else
     echo (fail " backend/Dockerfile missing")) ;;
  frontend ← call_quiet (test_f "frontend/Dockerfile") ;
  (if (frontend =? 0)%Z then
     echo (pass " frontend/Dockerfile exists")
   else
     echo (fail " frontend/Dockerfile missing")) ;;
  k8s ← call_quiet (test_d "kubernetes") ;
  if (k8s =? 0)%Z then
    echo (pass " kubernetes/ directory exists") ;;
    K8S_FILES ← capture (Pipe (Simple ["ls"; "kubernetes/*.yaml"])
                              (Simple ["wc"; "-l"])) ;
    echo ("  Found " +:+ K8S_FILES +:+ " Kubernetes manifest files")
  else
    echo (fail " kubernetes/ directory missing").

Definition footer : Sh M unit :=
  echo "" ;;
  echo frame ;;
  echo "✅ Verification Complete!" ;;
  echo frame.

(** The whole script; [here] is the value of [$(dirname "$0")]. *)
Definition script (here : string) : Sh M unit :=
  header ;;
  check_docker ;;
  check_compose ;;
  check_daemon ;;
  check_containers ;;
  check_images ;;
  check_volumes ;;
  check_networks ;;
  check_kubectl ;;
  check_cluster ;;
  check_context ;;
  check_minikube ;;
  check_kind ;;
  summary ;;
  check_files here ;;
  footer.

End Script.

Definition verify {M : Machine} (here : string) (w : world M)
  : Outcome (world M) :=
  run (script here) w.

(** ** Commands that only look *)





(** The line a check prints for the status it found. *)
Definition verdict (st : Z) (good bad : string) : Line :=
  Said (if (st =? 0)%Z then pass good else fail bad).

(** The line that closes the report. *)
Definition complete_banner : string := "✅ Verification Complete!".

End Verify.

(* ===================================================================== *)
(** * backend/app/controllers/user.controller.js                          *)
(* ===================================================================== *)

Module User.

(** Values held by the fields of a request body or of a stored user. *)
Inductive JsVal : Type :=
| VUndef
| VNull
| VBool (b : bool)
| VNum (n : Z)
| VStr (s : string).

#[global] Instance JsVal_eq_dec : EqDecision JsVal.
Proof. solve_decision. Defined.

(** A plain object: request bodies, documents, [user.toObject()]. *)
Abbreviation Obj := (gmap string JsVal).

(** [o.k]: a property that is not there reads as [undefined]. *)
Definition prop (o : Obj) (k : string) : JsVal := default VUndef (o !! k).

(** The errors handed to [next]. *)
Inductive Message : Type :=
| Text (msg : string)
| Stacks (errs : list string).

Inductive Error : Type :=
| NotFoundError
| BadRequestError (msg : Message)
| UnauthorizedError
| Thrown (err : string).        (* whatever a [catch] caught *)

(** The JSON bodies the controller sends. *)
Inductive Body : Type :=
| TokenBody (token : string)            (* { token } *)
| UsersBody (users : list Obj)          (* { users: [...] } *)
| UserBody (user : Obj)                 (* { user: ... } *)
| MessageBody (message : string).       (* { message: ... } *)

(** What becomes of a request. *)
Inductive Response : Type :=
| Sent (status : Z) (body : Body)       (* res.status(n).json(..) / send *)
| Next (err : Error)                    (* next(err) *)
| Rejected (err : string).              (* the handler's promise rejected *)

Record Req : Type :=
  { body : Obj;                         (* req.body *)
    email_param : string }.             (* req.params.email *)

Inductive Schema : Type :=
| userRegisterSchema
| userAuthSchema
| userEditSchema.

(** Operations on the [Users] model. *)
Inductive DbOp : Type :=
| Find
| FindOne (email : JsVal)
| UpdateOne (email : JsVal) (changes : Obj)
| DeleteOne (email : JsVal)
| Save (doc : Obj).

(** What the controller requires from modules that are not part of the
    sources: the JSON schemas and their validator, bcrypt, the work
    factor of [config.js], [helpers/token], and the failures of the
    database driver. *)
Record Platform : Type :=
  { validate : Obj -> Schema -> list string;   (* validator.errors, as stacks *)
    BCRYPT_WORK_FACTOR : Z;
    bcrypt_hash : string -> Z -> string;
    bcrypt_compare : string -> string -> bool;
    createToken : Obj -> string;
    db_error : DbOp -> list Obj -> option string }.

Section Controller.
Context (P : Platform).

(** ** The [Users] collection: the stored documents, oldest first *)

Definition has_email (email : JsVal) (d : Obj) : bool :=
  bool_decide (prop d "email" = email).

(** [Users.findOne({ email })] *)
Definition findOne (email : JsVal) (db : list Obj) : option Obj :=
  List.find (has_email email) db.

(** [Users.updateOne({ email }, changes)]: the documents afterwards and
    [matchedCount]. *)
Fixpoint updateOne (email : JsVal) (changes : Obj) (db : list Obj)
  : list Obj * Z :=
  match db with
  | [] => ([], 0%Z)
  | d :: rest =>
      if has_email email d then ((changes ∪ d) :: rest, 1%Z)
      else let (rest', n) := updateOne email changes rest in (d :: rest', n)
  end.

(** [Users.deleteOne({ email })]: the documents afterwards and
    [deletedCount]. *)
Fixpoint deleteOne (email : JsVal) (db : list Obj) : list Obj * Z :=
  match db with
  | [] => ([], 0%Z)
  | d :: rest =>
      if has_email email d then (rest, 1%Z)
      else let (rest', n) := deleteOne email rest in (d :: rest', n)
  end.

(** [bcrypt.hash(data, rounds)] rejects unless [data] is a string. *)
Definition hash (data : JsVal) : option string :=
  match data with
  | VStr s => Some (bcrypt_hash P s (BCRYPT_WORK_FACTOR P))
  | _ => None
  end.

(** [bcrypt.compare(data, encrypted)] rejects unless both are strings. *)
Definition compare (data encrypted : JsVal) : option bool :=
  match data, encrypted with
  | VStr s, VStr h => Some (bcrypt_compare P s h)
  | _, _ => None
  end.

Definition bcrypt_rejects : string := "data and salt arguments required".

(** [const userObj = user.toObject(); delete userObj.password;] *)
Definition without_password (user : Obj) : Obj := delete "password" user.

(** ** exports.create *)
Definition create (req : Req) (db : list Obj) : Response * list Obj :=
  match validate P (body req) userRegisterSchema with
  | _ :: _ as errs => (Next (BadRequestError (Stacks errs)), db)
  | [] =>
      (* Check if user already exists *)
      match db_error P (FindOne (prop (body req) "email")) db with
      | Some e => (Rejected e, db)
      | None =>
          match findOne (prop (body req) "email") db with
          | Some _ =>
              (Next (BadRequestError
                       (Text "User with this email already exists")), db)
          | None =>
              match hash (prop (body req) "password") with
              | None => (Rejected bcrypt_rejects, db)
              | Some hashedPassword =>
                  let newUser : Obj :=
                    <["firstName" := prop (body req) "firstName"]>
                    (<["lastName" := prop (body req) "lastName"]>
                    (<["email" := prop (body req) "email"]>
                    (<["password" := VStr hashedPassword]>
                    (<["isAdmin" := VBool false]> ∅)))) in
                  let token := createToken P newUser in
                  match db_error P (Save newUser) db with
                  | Some e => (Next (Thrown e), db)
                  | None => (Sent 201 (TokenBody token), db ++ [newUser])
                  end
              end
          end
      end
  end.

(** ** exports.authenticate *)
Definition authenticate (req : Req) (db : list Obj) : Response * list Obj :=
  match validate P (body req) userAuthSchema with
  | _ :: _ as errs => (Next (BadRequestError (Stacks errs)), db)
  | [] =>
      let email := prop (body req) "email" in
      let password := prop (body req) "password" in
      match db_error P (FindOne email) db with
      | Some e => (Rejected e, db)
      | None =>
          match findOne email db with
          | Some user =>
              match compare password (prop user "password") with
              | None => (Rejected bcrypt_rejects, db)
              | Some true => (Sent 200 (TokenBody (createToken P user)), db)
              | Some false => (Next UnauthorizedError, db)
              end
          | None => (Next NotFoundError, db)
          end
      end
  end.

(** ** exports.getAllUsers *)
Definition getAllUsers (req : Req) (db : list Obj) : Response * list Obj :=
  match db_error P Find db with
  | Some e => (Next (Thrown e), db)
  | None =>
      let users := db in
      let usersWithoutPasswords := without_password <$> users in
      (Sent 200 (UsersBody usersWithoutPasswords), db)
  end.

(** ** exports.getAUser *)
Definition getAUser (req : Req) (db : list Obj) : Response * list Obj :=
  let email := VStr (email_param req) in
  match db_error P (FindOne email) db with
  | Some e => (Rejected e, db)
  | None =>
      match findOne email db with
      | Some user => (Sent 200 (UserBody (without_password user)), db)
      | None => (Next NotFoundError, db)
      end
  end.

Definition null_toObject : string :=
  "TypeError: Cannot read properties of null (reading 'toObject')".

(** ** exports.updateAUser *)
Definition updateAUser (req : Req) (db : list Obj) : Response * list Obj :=
  match validate P (body req) userEditSchema with
  | _ :: _ as errs => (Next (BadRequestError (Stacks errs)), db)
  | [] =>
      match hash (prop (body req) "password") with
      | None => (Rejected bcrypt_rejects, db)
      | Some hashedPassword =>
          let email := VStr (email_param req) in
          let changes : Obj :=
            <["firstName" := prop (body req) "firstName"]>
            (<["lastName" := prop (body req) "lastName"]>
            (<["password" := VStr hashedPassword]> ∅)) in
          match db_error P (UpdateOne email changes) db with
          | Some e => (Next (Thrown e), db)
          | None =>
              let (db', matchedCount) := updateOne email changes db in
              if (matchedCount =? 0)%Z then (Next NotFoundError, db')
              else
                match db_error P (FindOne email) db' with
                | Some e => (Next (Thrown e), db')
                | None =>
                    match findOne email db' with
                    | Some updatedUser =>
                        (Sent 200 (UserBody (without_password updatedUser)),
                         db')
                    | None => (Next (Thrown null_toObject), db')
                    end
                end
          end
      end
  end.

(** ** exports.removeAUser *)
Definition removeAUser (req : Req) (db : list Obj) : Response * list Obj :=
  let email := VStr (email_param req) in
  match db_error P (DeleteOne email) db with
  | Some e => (Next (Thrown e), db)
  | None =>
      let (db', deletedCount) := deleteOne email db in
      if (deletedCount =? 0)%Z then (Next NotFoundError, db')
      else (Sent 200 (MessageBody "successfully deleted"), db')
  end.

End Controller.

(** The user objects of a response body. *)
Definition users_of (b : Body) : list Obj :=
  match b with
  | UsersBody users => users
  | UserBody user => [user]
  | TokenBody _ | MessageBody _ => []
  end.

(** The read and update operations on users. *)
Inductive Operation : Type := GetAllUsers | GetAUser | UpdateAUser.

Definition handler (P : Platform) (op : Operation)
  : Req -> list Obj -> Response * list Obj :=
  match op with
  | GetAllUsers => getAllUsers P
  | GetAUser => getAUser P
  | UpdateAUser => updateAUser P
  end.

(** The e-mail addresses of the stored users. *)
Definition emails (db : list Obj) : list JsVal :=
  (fun d => prop d "email") <$> db.

(** A bcrypt on which a password matches its own hash. *)
Definition bcrypt_sound (P : Platform) : Prop :=
  forall s, bcrypt_compare P s (bcrypt_hash P s (BCRYPT_WORK_FACTOR P)) = true.

(** A platform for trying the controller out: every body is valid, a
    hash is the password with a prefix, the database never fails. *)
Definition plain : Platform :=
  {| validate := fun _ _ => [];
     BCRYPT_WORK_FACTOR := 12;
     bcrypt_hash := fun s _ => "$2b$" +:+ s;
     bcrypt_compare := fun s h => String.eqb ("$2b$" +:+ s) h;
     createToken := fun u =>
       match u !! "email" with Some (VStr e) => "token:" +:+ e | _ => "token" end;
     db_error := fun _ _ => None |}.

Definition ada : Obj :=
  <["firstName" := VStr "Ada"]>
  (<["lastName" := VStr "Lovelace"]>
  (<["email" := VStr "ada@example.org"]>
  (<["password" := VStr "$2b$engine"]>
  (<["isAdmin" := VBool true]> ∅)))).

Definition registration : Obj :=
  <["firstName" := VStr "Grace"]>
  (<["lastName" := VStr "Hopper"]>
  (<["email" := VStr "grace@example.org"]>
  (<["password" := VStr "cobol"]> ∅))).

End User.

(* ===================================================================== *)
(** * Running scripts step by step                                         *)
(* ===================================================================== *)

(** Evaluate the script in hypothesis [H] up to the next answer of the
    machine or the next test of a status, and split there. *)
Ltac sh_eval H :=
  cbv beta iota delta
    [Sh.run Sh.start Sh.bind Sh.ret Sh.echo Sh.true_ Sh.exit_with
     Sh.exit_last Sh.call Sh.call_quiet Sh.capture Sh.errexit Sh.or_else
     Sh.env Sh.rc Sh.calls Sh.out Sh.status Sh.stdout] in H.

Ltac sh_split H :=
  match type of H with
  | context [Sh.exec ?M ?c ?w] =>
      let st := fresh "st" in
      let o := fresh "o" in
      let w' := fresh "w" in
      let E := fresh "E" in
      destruct (Sh.exec M c w) as [[st o] w'] eqn:E
  | context [if (?st =? 0)%Z then _ else _] =>
      let Hs := fresh "Hs" in
      destruct (Z.eqb_spec st 0) as [Hs|Hs]; [try subst st|]
  | context [if ?b then _ else _] =>
      let Hb := fresh "Hb" in
      destruct b eqn:Hb
  end;
  sh_eval H.

Ltac sh_exec H := sh_eval H; repeat sh_split H.

(** Take apart [H : x ∈ [a; b; ...]]. *)
Ltac elem_cases H :=
  repeat (apply elem_of_cons in H as [H|H];
          [first [discriminate H | injection H as ?; subst | subst | idtac]|]);
  try (apply elem_of_nil in H; destruct H).

(** Prove [x ∈ [a; b; ...]]. *)
Ltac elem_here :=
  solve [cbn; repeat first [apply list_elem_of_here
                           | apply list_elem_of_further]].

Section Reach.
Import Sh.
Context {M : Machine}.

Lemma elem_statuses (c : Cmd) (st : Z) (t : list (Cmd * Z)) :
  (c, st) ∈ t <-> st ∈ statuses c t.
Proof.
  unfold statuses. rewrite list_elem_of_omap. split.
  - intros H. exists (c, st). split; [exact H|].
    cbn. destruct (decide (c = c)); congruence.
  - intros [[c' st'] [H Heq]]. cbn in Heq.
    destruct (decide (c' = c)); [|discriminate].
    injection Heq as ->. subst c'. exact H.
Qed.


Lemma reach_trans (w1 w2 w3 : world M) :
  reach w1 w2 -> reach w2 w3 -> reach w1 w3.
Proof.
  induction 1 as [w|w c w' _ IH]; intros H; [exact H|].
  apply (reach_next w c w3). apply IH, H.
Qed.

End Reach.

(** Take apart [H : (c, st) ∈ t] for a trace [t] that is written out. *)
Ltac trace_cases H :=
  apply elem_statuses in H; vm_compute in H; elem_cases H.


(* ===================================================================== *)
(** * Properties of the deployment script                                  *)
(* ===================================================================== *)

Section DeployFacts.
Import Sh Deploy.
Context {M : Machine}.
Implicit Types (here : string) (w : world M).

(** Whatever happens, the manifests are submitted in the fixed order:
    what was submitted is a beginning of the dependency order. *)
Lemma deploy_submitted_prefix here w :
  submitted (trace (deploy here w)) `prefix_of` manifest <$> dependency_order.
Proof.
  remember (deploy here w) as r eqn:Hr.
  unfold deploy, script in Hr. sh_exec Hr.
  all: subst r; vm_compute.
  all: eexists; reflexivity.
Qed.

(** C1: a run that reaches Complete has submitted namespace, secret,
    configmap, MongoDB, backend, frontend and ingress, each once and in
    this order, and nothing else. *)
Theorem deploy_dependency_order here w :
  terminal (deploy here w) = Complete ->
  submitted (trace (deploy here w)) = manifest <$> dependency_order.
Proof.
  remember (deploy here w) as r eqn:Hr.
  unfold deploy, script in Hr. sh_exec Hr.
  all: subst r; vm_compute; try discriminate; reflexivity.
Qed.

(** C5: when [command -v kubectl] fails, the run stops in the tooling
    precheck: it is Aborted, the exit status is 1, the precheck is the
    only command that was run and no manifest was submitted. *)
Theorem deploy_precheck_aborts here w :
  status (fst (exec M (command_v "kubectl") w)) <> 0%Z ->
  let r := deploy here w in
  terminal r = Aborted /\ code r = 1%Z /\ code r <> 0%Z /\
  trace r = [(command_v "kubectl",
              status (fst (exec M (command_v "kubectl") w)))] /\
  submitted (trace r) = [].
Proof.
  intros Habsent r. subst r.
  remember (deploy here w) as r eqn:Hr.
  unfold deploy, script in Hr. sh_eval Hr.
  destruct (exec M (command_v "kubectl") w) as [[st o] w1] eqn:E.
  cbn [fst status] in Habsent. sh_eval Hr.
  destruct (Z.eqb_spec st 0) as [Hs|Hs]; [contradiction|].
  sh_eval Hr. subst r. cbn. repeat split; lia.
Qed.

(** The precheck is the first thing every run does. *)
Lemma deploy_precheck_first here w :
  head (trace (deploy here w))
  = Some (command_v "kubectl",
          status (fst (exec M (command_v "kubectl") w))).
Proof.
  remember (deploy here w) as r eqn:Hr.
  unfold deploy, script in Hr. sh_exec Hr.
  all: subst r; reflexivity.
Qed.

(** C3: when the submission of the namespace, the secret, the configmap
    or MongoDB is rejected, the run is Aborted with the status of the
    rejected [kubectl apply], which is the last command it ran; the
    manifests submitted are those up to the rejected one, MongoDB is not
    waited for unless it was accepted, and neither backend nor frontend
    is submitted. *)
Theorem deploy_required_apply_fatal here w (res : Resource) (st : Z) :
  res ∈ required ->
  (kubectl_apply (manifest res), st) ∈ trace (deploy here w) ->
  st <> 0%Z ->
  let r := deploy here w in
  terminal r = Aborted /\ code r = st /\
  last (trace r) = Some (kubectl_apply (manifest res), st) /\
  submitted (trace r) = (manifest <$> take (S (rank res)) dependency_order) /\
  (forall t, (kubectl_wait_mongodb, t) ∉ trace r) /\
  (manifest BackendUnit ∉ submitted (trace r)) /\
  (manifest FrontendUnit ∉ submitted (trace r)).
Proof.
  intros Hres Hin Hst r. subst r. revert Hin.
  remember (deploy here w) as r eqn:Hr.
  unfold deploy, script in Hr. sh_exec Hr.
  all: subst r; cbn [trace]; intros Hin.
  all: unfold required in Hres; elem_cases Hres.
  all: trace_cases Hin; try congruence.
  all: repeat split; try reflexivity.
  all: try (intros t Ht; trace_cases Ht).
  all: try (vm_compute; intros Ht; elem_cases Ht).
Qed.

(** C4: when the submission of the ingress is rejected, the run still
    reaches Complete with exit status 0, every manifest was submitted,
    the only warning is the routing one and the closing lines are
    printed. *)
Theorem deploy_routing_failure_tolerated here w (st : Z) :
  (kubectl_apply (manifest RoutingRule), st) ∈ trace (deploy here w) ->
  st <> 0%Z ->
  let r := deploy here w in
  terminal r = Complete /\ code r = 0%Z /\
  warnings (output r) = [routing_warning] /\
  submitted (trace r) = manifest <$> dependency_order /\
  "✅ Deployment complete!" ∈ said (output r).
Proof.
  intros Hin Hst r. subst r. revert Hin.
  remember (deploy here w) as r eqn:Hr.
  unfold deploy, script in Hr. sh_exec Hr.
  all: subst r; cbn [trace]; intros Hin.
  all: trace_cases Hin; try congruence.
  all: repeat split; try reflexivity.
  all: vm_compute; elem_here.
Qed.

(** C2, as the script has it: when [kubectl wait --timeout=120s] fails,
    the failure is swallowed by [|| true]: the backend is submitted
    next and every warning the script prints is the routing warning, so
    none is about readiness.  If the cluster then accepts backend and
    frontend the run reaches Complete with exit status 0, all manifests
    submitted. *)
Theorem deploy_readiness_timeout_tolerated here w (st : Z) :
  (kubectl_wait_mongodb, st) ∈ trace (deploy here w) ->
  st <> 0%Z ->
  let r := deploy here w in
  (exists sb, (kubectl_apply (manifest BackendUnit), sb) ∈ trace r) /\
  Forall (fun line => line = routing_warning) (warnings (output r)) /\
  ((forall u s, u ∈ [BackendUnit; FrontendUnit] ->
                (kubectl_apply (manifest u), s) ∈ trace r -> s = 0%Z) ->
   terminal r = Complete /\ code r = 0%Z /\
   submitted (trace r) = manifest <$> dependency_order).
Proof.
  intros Hin Hst r. subst r. revert Hin.
  remember (deploy here w) as r eqn:Hr.
  unfold deploy, script in Hr. sh_exec Hr.
  all: subst r; cbn [trace]; intros Hin.
  all: trace_cases Hin; try congruence.
  all: split; [eexists; elem_here|].
  all: split; [vm_compute; repeat constructor|].
  all: intros Hok; repeat split; try reflexivity.
  all: exfalso.
  all: match goal with
       | Hs : ?s <> 0%Z |- _ =>
           apply Hs;
           first [ apply (Hok BackendUnit s); elem_here
                 | apply (Hok FrontendUnit s); elem_here ]
       end.
Qed.


End DeployFacts.

(** ** The deployment script on fake clusters *)

(** The script on a cluster that accepts everything, with MongoDB
    ready in time. *)
Example deploy_on_healthy_cluster :
  let r := @Deploy.deploy (Sh.fake (Sh.failing [])) "scripts" [] in
  fst <$> Sh.trace r
  = [Deploy.command_v "kubectl"; Deploy.cd "scripts/../kubernetes";
     Deploy.kubectl_apply "namespace.yaml"; Deploy.kubectl_apply "secret.yaml";
     Deploy.kubectl_apply "configmap.yaml";
     Deploy.kubectl_apply "mongodb-deployment.yaml";
     Deploy.kubectl_wait_mongodb;
     Deploy.kubectl_apply "backend-deployment.yaml";
     Deploy.kubectl_apply "frontend-deployment.yaml";
     Deploy.kubectl_apply "ingress.yaml"] /\
  Sh.code r = 0%Z /\ Deploy.warnings (Sh.output r) = [].
Proof. vm_compute. repeat split; reflexivity. Qed.

(** The script on a cluster that rejects the backend. *)
Example deploy_backend_rejected :
  let r := @Deploy.deploy
             (Sh.fake (Sh.failing
                         [Deploy.kubectl_apply "backend-deployment.yaml"]))
             "scripts" [] in
  Deploy.terminal r = Deploy.Aborted /\ Sh.code r = 1%Z /\
  Deploy.submitted (Sh.trace r)
  = ["namespace.yaml"; "secret.yaml"; "configmap.yaml";
     "mongodb-deployment.yaml"; "backend-deployment.yaml"].
Proof. vm_compute. repeat split; reflexivity. Qed.

(** A cluster that accepts everything. *)
Lemma deploy_dependency_order_witness :
  let r := @Deploy.deploy (Sh.fake (Sh.failing [])) "scripts" [] in
  Deploy.terminal r = Deploy.Complete /\
  Deploy.submitted (Sh.trace r)
  = Deploy.manifest <$> Deploy.dependency_order.
Proof.
  split; [reflexivity|].
  apply (@deploy_dependency_order (Sh.fake (Sh.failing [])) "scripts" []).
  reflexivity.
Defined.

(** A machine without [kubectl]. *)
Lemma deploy_precheck_aborts_witness :
  let r := @Deploy.deploy
             (Sh.fake (Sh.failing [Deploy.command_v "kubectl"])) "scripts" [] in
  Deploy.terminal r = Deploy.Aborted /\ Sh.code r = 1%Z /\
  Deploy.submitted (Sh.trace r) = [].
Proof.
  pose proof (@deploy_precheck_aborts
                (Sh.fake (Sh.failing [Deploy.command_v "kubectl"]))
                "scripts" []) as H.
  destruct H as (Ha & Hc & _ & _ & Hs); [vm_compute; discriminate|].
  exact (conj Ha (conj Hc Hs)).
Defined.

(** A cluster that rejects the configmap. *)
Lemma deploy_required_apply_fatal_witness :
  let r := @Deploy.deploy
             (Sh.fake (Sh.failing [Deploy.kubectl_apply "configmap.yaml"]))
             "scripts" [] in
  Deploy.terminal r = Deploy.Aborted /\ Sh.code r = 1%Z /\
  Deploy.submitted (Sh.trace r)
  = ["namespace.yaml"; "secret.yaml"; "configmap.yaml"].
Proof.
  pose proof (@deploy_required_apply_fatal
                (Sh.fake (Sh.failing [Deploy.kubectl_apply "configmap.yaml"]))
                "scripts" [] Deploy.ConfigEntry 1%Z) as H.
  destruct H as (Ha & Hc & _ & Hs & _).
  - unfold Deploy.required. elem_here.
  - vm_compute. elem_here.
  - discriminate.
  - exact (conj Ha (conj Hc Hs)).
Defined.

(** A cluster without an ingress controller. *)
Lemma deploy_routing_failure_tolerated_witness :
  let r := @Deploy.deploy
             (Sh.fake (Sh.failing [Deploy.kubectl_apply "ingress.yaml"]))
             "scripts" [] in
  Deploy.terminal r = Deploy.Complete /\ Sh.code r = 0%Z /\
  Deploy.warnings (Sh.output r) = [Deploy.routing_warning].
Proof.
  pose proof (@deploy_routing_failure_tolerated
                (Sh.fake (Sh.failing [Deploy.kubectl_apply "ingress.yaml"]))
                "scripts" [] 1%Z) as H.
  destruct H as (Ha & Hc & Hw & _).
  - vm_compute. elem_here.
  - discriminate.
  - exact (conj Ha (conj Hc Hw)).
Defined.

(** A cluster on which MongoDB never becomes ready: the run is Complete
    and the script has printed no warning at all, so not exactly one. *)
Lemma deploy_readiness_warning_counterexample :
  let r := @Deploy.deploy
             (Sh.fake (Sh.failing [Deploy.kubectl_wait_mongodb]))
             "scripts" [] in
  (Deploy.kubectl_wait_mongodb, 1%Z) ∈ Sh.trace r /\
  Deploy.terminal r = Deploy.Complete /\
  Deploy.warnings (Sh.output r) = [] /\
  length (Deploy.warnings (Sh.output r)) <> 1.
Proof.
  vm_compute. repeat split; [elem_here|discriminate].
Qed.

Lemma deploy_readiness_timeout_tolerated_witness :
  let r := @Deploy.deploy
             (Sh.fake (Sh.failing [Deploy.kubectl_wait_mongodb]))
             "scripts" [] in
  (exists sb,
     (Deploy.kubectl_apply (Deploy.manifest Deploy.BackendUnit), sb)
     ∈ Sh.trace r) /\
  Forall (fun line => line = Deploy.routing_warning)
         (Deploy.warnings (Sh.output r)).
Proof.
  pose proof (@deploy_readiness_timeout_tolerated
                (Sh.fake (Sh.failing [Deploy.kubectl_wait_mongodb]))
                "scripts" [] 1%Z) as H.
  destruct H as (Hb & Hw & _).
  - vm_compute. elem_here.
  - discriminate.
  - exact (conj Hb Hw).
Defined.



(* ===================================================================== *)
(** * Properties of the build script                                       *)
(* ===================================================================== *)

Section BuildFacts.
Import Sh Build.
Context {M : Machine}.
Implicit Types (w : world M).



End BuildFacts.

(** Both images build, but the listing of images finds none: the script
    stops there with the status of [grep]. *)
Example build_listing_empty :
  let r := @Build.build_images (Sh.fake (Sh.failing [Build.list_images])) [] in
  Sh.finished r = false /\ Sh.code r = 1%Z /\
  last (Sh.said (Sh.output r)) = Some "📋 Available images:".
Proof. vm_compute. repeat split; reflexivity. Qed.


(* ===================================================================== *)
(** * Properties of the verification script                                *)
(* ===================================================================== *)

(** Run one part of a script from an arbitrary state and describe what
    it added to the state. *)
Ltac part_start unfolder :=
  intros w l cs os;
  let s0 := fresh "s0" in
  let Hs := fresh "Hs" in
  let R := fresh "R" in
  let H := fresh "H" in
  set (s0 := {| Sh.env := w; Sh.rc := l;
                Sh.calls := cs ++ []; Sh.out := os ++ [] |});
  assert (Hs : {| Sh.env := w; Sh.rc := l; Sh.calls := cs; Sh.out := os |}
               = s0) by (unfold s0; rewrite !app_nil_r; reflexivity);
  rewrite Hs; clear Hs;
  match goal with
  | |- context [?m s0] => remember (m s0) as R eqn:H
  end;
  unfold s0 in H; clear s0; unfolder H; sh_exec H; subst R;
  rewrite <- ?List.app_assoc;
  do 5 eexists; (split; [reflexivity|]); cbn [app].




Section VerifyParts.
Import Sh Verify.
Context {M : Machine}.














End VerifyParts.

(** Go through the next part [m] of the script in [H], using what is
    known of it. *)
Ltac part_next H m lemma :=
  match type of H with
  | context [m (Sh.Build_St _ ?w ?l ?cs ?os)] =>
      let res := fresh "res" in
      let w' := fresh "w" in
      let l' := fresh "l" in
      let cs' := fresh "cs" in
      let os' := fresh "os" in
      let E := fresh "E" in
      let Q := fresh "Q" in
      destruct (lemma w l cs os) as (res & w' & l' & cs' & os' & E & Q);
      rewrite E in H; clear E
  end.


(** Find a line in an output that is put together from parts. *)
Ltac elem_app :=
  solve [ assumption
        | apply list_elem_of_here
        | apply elem_of_app; left; elem_app
        | apply elem_of_app; right; elem_app
        | apply list_elem_of_further; elem_app ].

Section VerifyFacts.
Import Sh Verify.
Context {M : Machine}.




End VerifyFacts.

(** ** The verification script on fake machines *)



(** A machine without [docker]. *)
Example verify_without_docker :
  let r := @Verify.verify
             (Sh.fake (Sh.failing [Verify.command_v "docker"])) "scripts" [] in
  Sh.code r = 1%Z /\ Sh.trace r = [(Verify.command_v "docker", 1%Z)].
Proof. vm_compute. split; reflexivity. Qed.

(** A script that cannot enter the project directory. *)
Example verify_without_project_directory :
  let r := @Verify.verify
             (Sh.fake (Sh.failing [Verify.cd "scripts/.."])) "scripts" [] in
  Sh.finished r = false /\ Sh.code r = 1%Z.
Proof. vm_compute. split; reflexivity. Qed.

(* ===================================================================== *)
(** * Properties of the user controller                                    *)
(* ===================================================================== *)

Section UserFacts.
Import User.
Context (P : Platform).
Implicit Types (req : Req) (db : list Obj) (u d : Obj).

Lemma without_password_lookup u : without_password u !! "password" = None.
Proof. apply lookup_delete_eq. Qed.

Lemma without_password_other u k :
  k <> "password" -> without_password u !! k = u !! k.
Proof. intros H. apply lookup_delete_ne. congruence. Qed.

Lemma findOne_elem email db d : findOne email db = Some d -> d ∈ db.
Proof.
  unfold findOne. intros H. apply find_some in H as [H _].
  apply list_elem_of_In, H.
Qed.

(** C9: in every response that getAllUsers, getAUser or updateAUser
    send, each user object is a stored user with its [password] property
    deleted; so none has a [password] property, and all other
    properties are those of the stored user. *)
Theorem user_responses_without_password (op : Operation) req db status b :
  fst (handler P op req db) = Sent status b ->
  Forall (fun u =>
            u !! "password" = None /\
            exists d, d ∈ snd (handler P op req db) /\
                      u = without_password d)
         (users_of b).
Proof.
  destruct op; cbn [handler].
  - unfold getAllUsers.
    destruct (db_error P Find db); cbn [fst snd]; [discriminate|].
    intros [= _ <-]. cbn [users_of].
    apply Forall_fmap, Forall_forall. intros d Hd. cbn.
    split; [apply without_password_lookup|]. exists d. split; [exact Hd|reflexivity].
  - unfold getAUser.
    destruct (db_error P _ db); cbn [fst snd]; [discriminate|].
    destruct (findOne _ db) as [d|] eqn:Hd; cbn [fst snd]; [|discriminate].
    intros [= _ <-]. cbn [users_of].
    constructor; [|constructor].
    split; [apply without_password_lookup|].
    exists d. split; [eapply findOne_elem, Hd|reflexivity].
  - unfold updateAUser.
    destruct (validate P _ _); [|discriminate].
    destruct (hash P _); [|discriminate].
    destruct (db_error P (UpdateOne _ _) db); [discriminate|].
    destruct (updateOne _ _ db) as [db' n].
    destruct (n =? 0)%Z; [discriminate|].
    destruct (db_error P (FindOne _) db'); [discriminate|].
    destruct (findOne _ db') as [d|] eqn:Hd; cbn [fst snd]; [|discriminate].
    intros [= _ <-]. cbn [users_of].
    constructor; [|constructor].
    split; [apply without_password_lookup|].
    exists d. split; [eapply findOne_elem, Hd|reflexivity].
Qed.

(** Whatever the request, [create] either leaves the collection as it
    was or adds one user whose [isAdmin] is [false]. *)
Lemma create_stores_non_admin req db :
  snd (create P req db) = db \/
  exists doc, snd (create P req db) = db ++ [doc] /\
              doc !! "isAdmin" = Some (VBool false).
Proof.
  unfold create.
  destruct (validate P _ _); [|left; reflexivity].
  destruct (db_error P (FindOne _) db); [left; reflexivity|].
  destruct (findOne _ db); [left; reflexivity|].
  destruct (hash P _); [|left; reflexivity].
  destruct (db_error P (Save _) db); [left; reflexivity|].
  right. eexists. split; [reflexivity|].
  by simplify_map_eq.
Qed.

(** [create] reads four properties of the body, and [isAdmin] is not one
    of them. *)
Lemma prop_delete_ne (o : Obj) k k' : k <> k' -> prop (delete k o) k' = prop o k'.
Proof. intros H. unfold prop. by rewrite lookup_delete_ne. Qed.

(** C10: two valid registration requests whose bodies differ at most in
    [isAdmin] have the same effect: the same response and the same
    collection afterwards; and the user that is stored, if any, has
    [isAdmin] set to [false]. *)
Theorem create_ignores_isAdmin (b1 b2 : Obj) (e1 e2 : string) db :
  validate P b1 userRegisterSchema = [] ->
  validate P b2 userRegisterSchema = [] ->
  delete "isAdmin" b1 = delete "isAdmin" b2 ->
  let r1 := create P {| body := b1; email_param := e1 |} db in
  let r2 := create P {| body := b2; email_param := e2 |} db in
  r1 = r2 /\
  (snd r1 = db \/
   exists doc, snd r1 = db ++ [doc] /\ doc !! "isAdmin" = Some (VBool false)) /\
  (snd r2 = db \/
   exists doc, snd r2 = db ++ [doc] /\ doc !! "isAdmin" = Some (VBool false)).
Proof.
  intros Hv1 Hv2 Hsame r1 r2.
  split; [|split; apply create_stores_non_admin].
  assert (Hprop : forall k, k <> "isAdmin" -> prop b1 k = prop b2 k).
  { intros k Hk.
    rewrite <- (prop_delete_ne b1 "isAdmin" k), <- (prop_delete_ne b2 "isAdmin" k)
      by congruence.
    by rewrite Hsame. }
  subst r1 r2. unfold create. cbn [body]. rewrite Hv1, Hv2.
  rewrite !(Hprop "email"), !(Hprop "password"), !(Hprop "firstName"),
    !(Hprop "lastName") by discriminate.
  reflexivity.
Qed.

End UserFacts.

(** One stored user, read back by e-mail address. *)
Lemma user_responses_without_password_witness :
  let req := {| User.body := ∅; User.email_param := "ada@example.org" |} in
  fst (User.handler User.plain User.GetAUser req [User.ada])
  = User.Sent 200 (User.UserBody (User.without_password User.ada)) /\
  Forall (fun u : User.Obj => u !! "password" = None)
         (User.users_of (User.UserBody (User.without_password User.ada))).
Proof.
  intros req. split; [reflexivity|].
  pose proof (user_responses_without_password User.plain User.GetAUser
                req [User.ada] 200%Z
                (User.UserBody (User.without_password User.ada))) as H.
  eapply Forall_impl; [apply H; reflexivity|].
  intros u [Hu _]. exact Hu.
Defined.

(** A registration sent with and without [isAdmin: true]. *)
Lemma create_ignores_isAdmin_witness :
  let honest := User.registration in
  let forged := <["isAdmin" := User.VBool true]> User.registration in
  User.create User.plain
    {| User.body := honest; User.email_param := "" |} [User.ada]
  = User.create User.plain
      {| User.body := forged; User.email_param := "" |} [User.ada].
Proof.
  intros honest forged.
  apply (create_ignores_isAdmin User.plain honest forged "" "" [User.ada]).
  - reflexivity.
  - reflexivity.
  - vm_compute. reflexivity.
Defined.

(** The forged registration is stored without admin rights, and the
    listing shows both users without their passwords. *)
Example create_forged_registration :
  let forged := <["isAdmin" := User.VBool true]> User.registration in
  let '(res, db) :=
    User.create User.plain
      {| User.body := forged; User.email_param := "" |} [User.ada] in
  res = User.Sent 201 (User.TokenBody "token:grace@example.org") /\
  (fun d => (User.prop d "email", User.prop d "isAdmin",
             User.prop d "password")) <$> db
  = [(User.VStr "ada@example.org", User.VBool true, User.VStr "$2b$engine");
     (User.VStr "grace@example.org", User.VBool false,
      User.VStr "$2b$cobol")].
Proof. vm_compute. split; reflexivity. Qed.

Example getAllUsers_lists_without_passwords :
  let req := {| User.body := ∅; User.email_param := "" |} in
  match fst (User.getAllUsers User.plain req [User.ada]) with
  | User.Sent 200 (User.UsersBody [u]) =>
      u !! "password" = None /\ u !! "email" = Some (User.VStr "ada@example.org")
  | _ => False
  end.
Proof. vm_compute. split; reflexivity. Qed.

Example updateAUser_unknown_address :
  fst (User.updateAUser User.plain
         {| User.body := User.registration;
            User.email_param := "nobody@example.org" |} [User.ada])
  = User.Next User.NotFoundError.
Proof. reflexivity. Qed.


(* ===================================================================== *)
(** * More on the deployment and build scripts                             *)
(* ===================================================================== *)

Section DeployMore.
Import Sh Deploy.
Context {M : Machine}.
Implicit Types (here : string) (w : world M).

(** Every run goes through the commands of the script in their order
    and stops somewhere: precheck, [cd], the four required manifests,
    the wait for MongoDB, backend, frontend, ingress. *)
Theorem deploy_commands_in_order here w :
  fst <$> trace (deploy here w) `prefix_of` steps here.
Proof.
  remember (deploy here w) as r eqn:Hr.
  unfold deploy, script in Hr. sh_exec Hr.
  all: subst r; cbn [trace]; rewrite ?fmap_app; cbn [fmap list_fmap app fst].
  all: unfold steps; eexists; cbn [app]; reflexivity.
Qed.

(** The exit status is 0 exactly when the run is Complete, and the line
    announcing success is printed in exactly these runs. *)
Theorem deploy_exit_status here w :
  let r := deploy here w in
  (code r = 0%Z <-> terminal r = Complete) /\
  (complete_banner ∈ said (output r) <-> terminal r = Complete).
Proof.
  intros r. subst r.
  remember (deploy here w) as r eqn:Hr.
  unfold deploy, script in Hr. sh_exec Hr.
  all: subst r; vm_compute.
  all: split; split; intros H;
    first [ reflexivity | discriminate H | congruence
          | elem_here | (exfalso; elem_cases H) ].
Qed.

(** A rejected backend or frontend is fatal as well: the run is Aborted
    with the status of the rejected [kubectl apply], which is the last
    command it ran, the ingress is not submitted and success is not
    announced. *)
Theorem deploy_stateless_apply_fatal here w (u : Resource) (st : Z) :
  u ∈ [BackendUnit; FrontendUnit] ->
  (kubectl_apply (manifest u), st) ∈ trace (deploy here w) ->
  st <> 0%Z ->
  let r := deploy here w in
  terminal r = Aborted /\ code r = st /\
  last (trace r) = Some (kubectl_apply (manifest u), st) /\
  submitted (trace r) = (manifest <$> take (S (rank u)) dependency_order) /\
  (complete_banner ∉ said (output r)).
Proof.
  intros Hu Hin Hst r. subst r. revert Hin.
  remember (deploy here w) as r eqn:Hr.
  unfold deploy, script in Hr. sh_exec Hr.
  all: subst r; cbn [trace]; intros Hin.
  all: elem_cases Hu.
  all: trace_cases Hin; try congruence.
  all: repeat split; try reflexivity.
  all: vm_compute; intros Ht; elem_cases Ht.
Qed.

(** When the script cannot enter the directory of the manifests it
    stops there with the status of [cd]: nothing is submitted. *)
Theorem deploy_cd_fatal here w (st : Z) :
  (cd (here +:+ "/../kubernetes"), st) ∈ trace (deploy here w) ->
  st <> 0%Z ->
  let r := deploy here w in
  terminal r = Aborted /\ code r = st /\ submitted (trace r) = [] /\
  last (trace r) = Some (cd (here +:+ "/../kubernetes"), st).
Proof.
  intros Hin Hst r. subst r. revert Hin.
  remember (deploy here w) as r eqn:Hr.
  unfold deploy, script in Hr. sh_exec Hr.
  all: subst r; cbn [trace]; intros Hin.
  all: cbn [app] in Hin; elem_cases Hin; try congruence.
  all: repeat split; reflexivity.
Qed.

(** The script prints a warning only for a rejected ingress: a run
    prints either no warning, or the routing warning once, and then the
    ingress was rejected and the run is Complete. *)
Theorem deploy_warns_only_about_ingress here w :
  let r := deploy here w in
  warnings (output r) = [] \/
  (warnings (output r) = [routing_warning] /\
   terminal r = Complete /\
   exists st, st <> 0%Z /\
              (kubectl_apply (manifest RoutingRule), st) ∈ trace r).
Proof.
  intros r. subst r.
  remember (deploy here w) as r eqn:Hr.
  unfold deploy, script in Hr. sh_exec Hr.
  all: subst r.
  all: first [ left; reflexivity
             | right; split; [reflexivity|split; [reflexivity|]];
               eexists; split; [eassumption|elem_here] ].
Qed.

(** MongoDB is waited for exactly in the runs in which its manifest was
    accepted, and whatever the wait answers, the backend is submitted
    after it. *)
Theorem deploy_wait_gate here w :
  let r := deploy here w in
  ((exists t, (kubectl_wait_mongodb, t) ∈ trace r) <->
   (kubectl_apply (manifest StatefulUnit), 0%Z) ∈ trace r) /\
  (forall t, (kubectl_wait_mongodb, t) ∈ trace r ->
             exists sb, (kubectl_apply (manifest BackendUnit), sb) ∈ trace r).
Proof.
  intros r. subst r.
  remember (deploy here w) as r eqn:Hr.
  unfold deploy, script in Hr. sh_exec Hr.
  all: subst r; cbn [trace].
  all: split; [split|].
  all: try (intros [t Ht]; trace_cases Ht; try congruence; elem_here).
  all: try (intros Ht; trace_cases Ht; try congruence; eexists; elem_here).
  all: try (intros t Ht; trace_cases Ht; try congruence; eexists; elem_here).
Qed.

End DeployMore.

Section BuildMore.
Import Sh Build.
Context {M : Machine}.
Implicit Types (w : world M).


(** When [docker images | grep fullstack-app] fails, the script leaves
    with the status of the pipeline although both images were built and
    the success of the build has been announced. *)
Theorem build_listing_failure w (st : Z) :
  (list_images, st) ∈ trace (build_images w) ->
  st <> 0%Z ->
  let r := build_images w in
  finished r = false /\ code r = st /\
  complete_banner ∈ said (output r) /\
  (docker_build Backend, 0%Z) ∈ trace r /\
  (docker_build Frontend, 0%Z) ∈ trace r.
Proof.
  intros Hin Hst r. subst r. revert Hin.
  remember (build_images w) as r eqn:Hr.
  unfold build_images, script in Hr. sh_exec Hr.
  all: subst r; cbn [trace]; intros Hin.
  all: trace_cases Hin; try congruence.
  all: repeat split; try reflexivity; try elem_here.
  all: vm_compute; elem_here.
Qed.

(** The success of the build is announced exactly when both images were
    built. *)
Theorem build_announced_iff_built w :
  let r := build_images w in
  complete_banner ∈ said (output r) <->
  (docker_build Backend, 0%Z) ∈ trace r /\
  (docker_build Frontend, 0%Z) ∈ trace r.
Proof.
  intros r. subst r.
  remember (build_images w) as r eqn:Hr.
  unfold build_images, script in Hr. sh_exec Hr.
  all: subst r; cbn [trace output].
  all: split;
    [ intros H; first [ split; elem_here
                      | exfalso; vm_compute in H; elem_cases H ]
    | intros [H1 H2];
      first [ vm_compute; elem_here
            | exfalso; trace_cases H1; congruence
            | exfalso; trace_cases H2; congruence ] ].
Qed.

End BuildMore.

(** ** The scripts on more fake machines *)

(** A cluster that rejects the frontend. *)
Lemma deploy_stateless_apply_fatal_witness :
  let r := @Deploy.deploy
             (Sh.fake (Sh.failing
                         [Deploy.kubectl_apply "frontend-deployment.yaml"]))
             "scripts" [] in
  Deploy.terminal r = Deploy.Aborted /\ Sh.code r = 1%Z /\
  Deploy.submitted (Sh.trace r)
  = ["namespace.yaml"; "secret.yaml"; "configmap.yaml";
     "mongodb-deployment.yaml"; "backend-deployment.yaml";
     "frontend-deployment.yaml"].
Proof.
  pose proof (@deploy_stateless_apply_fatal
                (Sh.fake (Sh.failing
                            [Deploy.kubectl_apply "frontend-deployment.yaml"]))
                "scripts" [] Deploy.FrontendUnit 1%Z) as H.
  destruct H as (Ha & Hc & _ & Hs & _).
  - elem_here.
  - vm_compute. elem_here.
  - discriminate.
  - exact (conj Ha (conj Hc Hs)).
Defined.

(** A checkout without the directory of the manifests. *)
Lemma deploy_cd_fatal_witness :
  let r := @Deploy.deploy
             (Sh.fake (Sh.failing [Deploy.cd "scripts/../kubernetes"]))
             "scripts" [] in
  Deploy.terminal r = Deploy.Aborted /\ Sh.code r = 1%Z /\
  Deploy.submitted (Sh.trace r) = [].
Proof.
  pose proof (@deploy_cd_fatal
                (Sh.fake (Sh.failing [Deploy.cd "scripts/../kubernetes"]))
                "scripts" [] 1%Z) as H.
  destruct H as (Ha & Hc & Hs & _).
  - vm_compute. elem_here.
  - discriminate.
  - exact (conj Ha (conj Hc Hs)).
Defined.

(** A machine on which the listing of the images finds nothing. *)
Lemma build_listing_failure_witness :
  let r := @Build.build_images (Sh.fake (Sh.failing [Build.list_images])) [] in
  Sh.finished r = false /\ Sh.code r = 1%Z /\
  Build.complete_banner ∈ Sh.said (Sh.output r).
Proof.
  pose proof (@build_listing_failure
                (Sh.fake (Sh.failing [Build.list_images])) [] 1%Z) as H.
  destruct H as (Hf & Hc & Hb & _).
  - vm_compute. elem_here.
  - discriminate.
  - exact (conj Hf (conj Hc Hb)).
Defined.

(* ===================================================================== *)
(** * More on the verification script                                      *)
(* ===================================================================== *)

(** Settle a test of a status that is known. *)
Ltac status_known :=
  repeat match goal with
         | |- context [(?x =? 0)%Z] =>
             first [ is_var x;
                     destruct (Z.eqb_spec x 0); [congruence|]
                   | change (x =? 0)%Z with true ]
         end.

Section VerifyMore.
Import Sh Verify.
Context {M : Machine}.

(** The cluster check asks [kubectl cluster-info] first and, when that
    fails, runs nothing else.  When it succeeds the nodes and the
    namespace are asked for, a pass or warn line is printed for the
    namespace, and the resources are listed exactly when the namespace
    exists. *)
Theorem check_cluster_asks_only_when_reachable :
  performs (M := M) check_cluster
    (fun _ cs os =>
       exists st rest,
         cs = (cluster_info, st) :: rest /\
         (st <> 0%Z -> rest = []) /\
         (st = 0%Z ->
          exists nodes ns,
            (kubectl ["get"; "nodes"], nodes) ∈ rest /\
            (kubectl ["get"; "namespace"; "fullstack-app"], ns) ∈ rest /\
            ((exists a, (kubectl ["get"; "all"; "-n"; "fullstack-app"], a)
                        ∈ rest) <-> ns = 0%Z) /\
            Said (if (ns =? 0)%Z
                  then pass " Namespace 'fullstack-app' exists"
                  else warn " Namespace 'fullstack-app' does NOT exist")
              ∈ os)).
Proof.
  part_start ltac:(fun H => unfold check_cluster in H).
  all: do 2 eexists; split; [reflexivity|].
  all: split; [intros Hbad; first [congruence|reflexivity]|].
  all: intros Hgood; try congruence.
  all: do 2 eexists; split; [elem_here|]; split; [elem_here|].
  all: split;
    [split;
     [intros [a Ha]; first [reflexivity | exfalso; elem_cases Ha]
     |intros Hns; first [congruence | eexists; elem_here]]
    |status_known; elem_here].
Qed.

(** The summary asks the daemon first and looks for [docker] only when
    the daemon answered; a daemon that does not answer gives the fail
    line.  A cluster that does not answer gives a warn line, not a fail
    line. *)
Theorem summary_verdicts :
  performs (M := M) summary
    (fun _ cs os =>
       exists d rest,
         cs = (docker_info, d) :: rest /\
         (d <> 0%Z ->
          Said (fail " Docker: Not Ready") ∈ os /\
          forall s, (command_v "docker", s) ∉ rest) /\
         (Said (pass " Docker: Ready") ∈ os ->
          d = 0%Z /\ (command_v "docker", 0%Z) ∈ rest) /\
         exists k,
           (cluster_info, k) ∈ rest /\
           Said (if (k =? 0)%Z
                 then pass " Kubernetes: Ready"
                 else warn " Kubernetes: Not Available (optional)") ∈ os).
Proof.
  part_start ltac:(fun H => unfold summary in H).
  all: try (exfalso; congruence).
  all: do 2 eexists; split; [reflexivity|].
  all: split;
    [intros Hbad;
     first [ congruence
           | split; [elem_here|intros s Hs'; elem_cases Hs'] ]|].
  all: split;
    [intros Hp;
     first [ split; [reflexivity|elem_here]
           | exfalso; vm_compute in Hp; elem_cases Hp ]|].
  all: eexists; split; [elem_here|status_known; elem_here].
Qed.

(** The project check enters the project directory first and stops the
    script when that fails.  Otherwise it tests the compose file, the
    two Dockerfiles and the manifest directory, prints a pass or fail
    line for each, and counts the manifests exactly when the directory
    exists. *)
Theorem check_files_verdicts here :
  performs (M := M) (check_files here)
    (fun res cs os =>
       exists moved rest,
         cs = (cd (here +:+ "/.."), moved) :: rest /\
         (moved <> 0%Z -> res = Exit moved /\ rest = []) /\
         (moved = 0%Z ->
          res = Cont tt /\
          exists c b f k,
            snd <$> take 4 rest = [c; b; f; k] /\
            fst <$> rest
            = [test_f "docker-compose.yml"; test_f "backend/Dockerfile";
               test_f "frontend/Dockerfile"; test_d "kubernetes"]
              ++ (if (k =? 0)%Z
                  then [Pipe (Simple ["ls"; "kubernetes/*.yaml"])
                             (Simple ["wc"; "-l"])]
                  else []) /\
            verdict c " docker-compose.yml exists"
                      " docker-compose.yml missing" ∈ os /\
            verdict b " backend/Dockerfile exists"
                      " backend/Dockerfile missing" ∈ os /\
            verdict f " frontend/Dockerfile exists"
                      " frontend/Dockerfile missing" ∈ os /\
            verdict k " kubernetes/ directory exists"
                      " kubernetes/ directory missing" ∈ os)).
Proof.
  part_start ltac:(fun H => unfold check_files in H).
  all: do 2 eexists; split; [reflexivity|].
  all: split; [intros Hbad; first [congruence|split; reflexivity]|].
  all: intros Hgood; try congruence.
  all: split; [reflexivity|].
  all: do 4 eexists.
  all: split; [reflexivity|].
  all: cbn [fmap list_fmap fst snd].
  all: split; [status_known; reflexivity|].
  all: unfold verdict; repeat split; status_known; elem_here.
Qed.

(** ** The closing line *)

(** No check prints the closing line, and only the project check can
    stop the script. *)
Ltac keeps_quiet :=
  split; [eexists; reflexivity|];
  let H := fresh "H" in
  intros H; vm_compute in H; elem_cases H.

Lemma check_compose_goes_on :
  performs (M := M) check_compose
    (fun res _ os =>
       (exists a, res = Cont a) /\ (Said complete_banner ∉ os)).
Proof.
  part_start ltac:(fun H => unfold check_compose in H).
  all: keeps_quiet.
Qed.

Lemma check_daemon_goes_on :
  performs (M := M) check_daemon
    (fun res _ os =>
       (exists a, res = Cont a) /\ (Said complete_banner ∉ os)).
Proof.
  part_start ltac:(fun H => unfold check_daemon in H).
  all: keeps_quiet.
Qed.

Lemma check_containers_goes_on :
  performs (M := M) check_containers
    (fun res _ os =>
       (exists a, res = Cont a) /\ (Said complete_banner ∉ os)).
Proof.
  part_start ltac:(fun H => unfold check_containers in H).
  all: keeps_quiet.
Qed.

Lemma check_images_goes_on :
  performs (M := M) check_images
    (fun res _ os =>
       (exists a, res = Cont a) /\ (Said complete_banner ∉ os)).
Proof.
  part_start ltac:(fun H => unfold check_images in H).
  all: keeps_quiet.
Qed.

Lemma check_volumes_goes_on :
  performs (M := M) check_volumes
    (fun res _ os =>
       (exists a, res = Cont a) /\ (Said complete_banner ∉ os)).
Proof.
  part_start ltac:(fun H => unfold check_volumes in H).
  all: keeps_quiet.
Qed.

Lemma check_networks_goes_on :
  performs (M := M) check_networks
    (fun res _ os =>
       (exists a, res = Cont a) /\ (Said complete_banner ∉ os)).
Proof.
  part_start ltac:(fun H => unfold check_networks in H).
  all: keeps_quiet.
Qed.

Lemma check_kubectl_goes_on :
  performs (M := M) check_kubectl
    (fun res _ os =>
       (exists a, res = Cont a) /\ (Said complete_banner ∉ os)).
Proof.
  part_start ltac:(fun H => unfold check_kubectl in H).
  all: keeps_quiet.
Qed.

Lemma check_cluster_goes_on :
  performs (M := M) check_cluster
    (fun res _ os =>
       (exists a, res = Cont a) /\ (Said complete_banner ∉ os)).
Proof.
  part_start ltac:(fun H => unfold check_cluster in H).
  all: keeps_quiet.
Qed.

Lemma check_context_goes_on :
  performs (M := M) check_context
    (fun res _ os =>
       (exists a, res = Cont a) /\ (Said complete_banner ∉ os)).
Proof.
  part_start ltac:(fun H => unfold check_context in H).
  all: keeps_quiet.
Qed.

Lemma check_minikube_goes_on :
  performs (M := M) check_minikube
    (fun res _ os =>
       (exists a, res = Cont a) /\ (Said complete_banner ∉ os)).
Proof.
  part_start ltac:(fun H => unfold check_minikube in H).
  all: keeps_quiet.
Qed.

Lemma check_kind_goes_on :
  performs (M := M) check_kind
    (fun res _ os =>
       (exists a, res = Cont a) /\ (Said complete_banner ∉ os)).
Proof.
  part_start ltac:(fun H => unfold check_kind in H).
  all: keeps_quiet.
Qed.

Lemma summary_goes_on :
  performs (M := M) summary
    (fun res _ os =>
       (exists a, res = Cont a) /\ (Said complete_banner ∉ os)).
Proof.
  part_start ltac:(fun H => unfold summary in H).
  all: keeps_quiet.
Qed.

Lemma check_files_goes_on here :
  performs (M := M) (check_files here)
    (fun res _ os =>
       (res = Cont tt \/ exists c, c <> 0%Z /\ res = Exit c) /\
       (Said complete_banner ∉ os)).
Proof.
  part_start ltac:(fun H => unfold check_files in H).
  all: split;
    [first [left; reflexivity | right; eexists; split; [eassumption|reflexivity]]
    |let H := fresh "H" in intros H; vm_compute in H; elem_cases H].
Qed.

(** The closing line is printed exactly when the script reaches its last
    line: with [docker] installed and the project directory entered.
    The exit status is then 0, and in every other run it is not. *)
Theorem verify_closing_line here (w : world M) :
  let r := verify here w in
  (Said complete_banner ∈ output r <-> finished r = true) /\
  (finished r = true <-> code r = 0%Z).
Proof.
  intros r. subst r.
  remember (verify here w) as r eqn:Hr.
  unfold verify, script, header, footer, check_docker in Hr.
  sh_eval Hr.
  destruct (exec M (command_v "docker") w) as [[found o] w0] eqn:E.
  sh_eval Hr.
  destruct (Z.eqb_spec found 0) as [-> | Hfound]; sh_eval Hr.
  2:{ subst r. cbn [trace output finished code].
      split; split; intros H; try discriminate H.
      vm_compute in H. elem_cases H. }
  sh_split Hr.
  part_next Hr (@check_compose M) check_compose_goes_on;
    destruct Q as ([? ->] & ?); sh_eval Hr.
  part_next Hr (@check_daemon M) check_daemon_goes_on;
    destruct Q as ([? ->] & ?); sh_eval Hr.
  part_next Hr (@check_containers M) check_containers_goes_on;
    destruct Q as ([? ->] & ?); sh_eval Hr.
  part_next Hr (@check_images M) check_images_goes_on;
    destruct Q as ([? ->] & ?); sh_eval Hr.
  part_next Hr (@check_volumes M) check_volumes_goes_on;
    destruct Q as ([? ->] & ?); sh_eval Hr.
  part_next Hr (@check_networks M) check_networks_goes_on;
    destruct Q as ([? ->] & ?); sh_eval Hr.
  part_next Hr (@check_kubectl M) check_kubectl_goes_on;
    destruct Q as ([? ->] & ?); sh_eval Hr.
  part_next Hr (@check_cluster M) check_cluster_goes_on;
    destruct Q as ([? ->] & ?); sh_eval Hr.
  part_next Hr (@check_context M) check_context_goes_on;
    destruct Q as ([? ->] & ?); sh_eval Hr.
  part_next Hr (@check_minikube M) check_minikube_goes_on;
    destruct Q as ([? ->] & ?); sh_eval Hr.
  part_next Hr (@check_kind M) check_kind_goes_on;
    destruct Q as ([? ->] & ?); sh_eval Hr.
  part_next Hr (@summary M) summary_goes_on;
    destruct Q as ([? ->] & ?); sh_eval Hr.
  part_next Hr (@check_files M here) (check_files_goes_on here).
  destruct Q as ([-> | (c & Hc & ->)] & ?); cbv beta iota in Hr; subst r;
    cbn [trace output finished code].
  - split; split; intros _; try reflexivity. elem_app.
  - split; split; intros Hin; try discriminate Hin; try congruence.
    exfalso. rewrite !elem_of_app in Hin.
    repeat match type of Hin with _ \/ _ => destruct Hin as [Hin|Hin] end;
      try contradiction; vm_compute in Hin; elem_cases Hin.
Qed.

End VerifyMore.

(* ===================================================================== *)
(** * More on the user controller                                          *)
(* ===================================================================== *)

Section UserStore.
Import User.
Implicit Types (db : list Obj) (d : Obj) (email : JsVal).

Lemma has_email_true email d : has_email email d = true <-> prop d "email" = email.
Proof. unfold has_email. apply bool_decide_eq_true. Qed.

Lemma has_email_false email d :
  has_email email d = false <-> prop d "email" <> email.
Proof. unfold has_email. apply bool_decide_eq_false. Qed.

Lemma findOne_none email db : findOne email db = None <-> email ∉ emails db.
Proof.
  unfold findOne, emails. induction db as [|d db IH]; cbn.
  - split; [intros _; apply not_elem_of_nil|reflexivity].
  - rewrite not_elem_of_cons. destruct (has_email email d) eqn:Hd.
    + apply has_email_true in Hd. split; [discriminate|]. intros [H _]. congruence.
    + rewrite IH. split; [|tauto]. intros H. split; [|exact H].
      intros ->. by apply has_email_false in Hd.
Qed.

Lemma findOne_some email db d :
  findOne email db = Some d -> d ∈ db /\ prop d "email" = email.
Proof.
  unfold findOne. intros H. apply find_some in H as [H1 H2].
  split; [by apply list_elem_of_In|by apply has_email_true].
Qed.

Lemma findOne_app email db d :
  findOne email db = None ->
  findOne email (db ++ [d]) = if has_email email d then Some d else None.
Proof.
  unfold findOne. induction db as [|d' db IH]; cbn; [reflexivity|].
  destruct (has_email email d'); [discriminate|exact IH].
Qed.

(** [updateOne] rewrites the first user with the address and no other. *)
Lemma updateOne_spec email changes db :
  match findOne email db with
  | None => updateOne email changes db = (db, 0%Z)
  | Some _ =>
      exists pre d post,
        db = pre ++ d :: post /\ (email ∉ emails pre) /\
        prop d "email" = email /\
        updateOne email changes db = (pre ++ (changes ∪ d) :: post, 1%Z)
  end.
Proof.
  unfold findOne. induction db as [|d db IH]; cbn; [reflexivity|].
  destruct (has_email email d) eqn:Hd.
  - exists [], d, db. repeat split; [apply not_elem_of_nil|by apply has_email_true].
  - destruct (find (has_email email) db).
    + destruct IH as (pre & d' & post & -> & Hpre & Hd' & ->).
      exists (d :: pre), d', post. repeat split; [|exact Hd'].
      cbn. rewrite not_elem_of_cons. split; [|exact Hpre].
      intros ->. by apply has_email_false in Hd.
    + by rewrite IH.
Qed.

(** [deleteOne] removes the first user with the address and no other. *)
Lemma deleteOne_spec email db :
  match findOne email db with
  | None => deleteOne email db = (db, 0%Z)
  | Some d =>
      exists pre post,
        db = pre ++ d :: post /\ (email ∉ emails pre) /\
        prop d "email" = email /\
        deleteOne email db = (pre ++ post, 1%Z)
  end.
Proof.
  unfold findOne. induction db as [|d db IH]; cbn; [reflexivity|].
  destruct (has_email email d) eqn:Hd.
  - exists [], db. repeat split; [apply not_elem_of_nil|by apply has_email_true].
  - destruct (find (has_email email) db) as [d'|].
    + destruct IH as (pre & post & -> & Hpre & Hd' & ->).
      exists (d :: pre), post. repeat split; [|exact Hd'].
      cbn. rewrite not_elem_of_cons. split; [|exact Hpre].
      intros ->. by apply has_email_false in Hd.
    + by rewrite IH.
Qed.

End UserStore.

Section UserMore.
Import User.
Context (P : Platform).
Implicit Types (req : Req) (db : list Obj) (d : Obj).

(** What [create] does when it answers. *)
Lemma create_answered req db status b :
  fst (create P req db) = Sent status b ->
  exists pw,
    prop (body req) "password" = VStr pw /\
    findOne (prop (body req) "email") db = None /\
    let doc : Obj :=
      <["firstName" := prop (body req) "firstName"]>
      (<["lastName" := prop (body req) "lastName"]>
      (<["email" := prop (body req) "email"]>
      (<["password" := VStr (bcrypt_hash P pw (BCRYPT_WORK_FACTOR P))]>
      (<["isAdmin" := VBool false]> ∅)))) in
    create P req db = (Sent 201 (TokenBody (createToken P doc)), db ++ [doc]) /\
    status = 201%Z /\ b = TokenBody (createToken P doc).
Proof.
  unfold create.
  destruct (validate P _ _); [|discriminate].
  destruct (db_error P (FindOne _) db); [discriminate|].
  destruct (findOne _ db) eqn:Hfree; [discriminate|].
  destruct (prop (body req) "password") as [| | | |pw] eqn:Hpw;
    cbn [hash]; try discriminate.
  destruct (db_error P (Save _) db); [discriminate|].
  cbn [fst snd]. intros [= <- <-]. by exists pw.
Qed.


(** A valid registration for an address that a stored user already has
    is refused, and nothing is stored. *)
Theorem create_refuses_taken_address req db :
  validate P (body req) userRegisterSchema = [] ->
  db_error P (FindOne (prop (body req) "email")) db = None ->
  prop (body req) "email" ∈ emails db ->
  create P req db
  = (Next (BadRequestError (Text "User with this email already exists")), db).
Proof.
  intros Hv Hdb Hin. unfold create. rewrite Hv, Hdb.
  destruct (findOne _ db) eqn:Hf; [reflexivity|].
  apply findOne_none in Hf. contradiction.
Qed.

(** Registration keeps the addresses of the stored users distinct. *)
Theorem create_keeps_addresses_distinct req db :
  NoDup (emails db) -> NoDup (emails (snd (create P req db))).
Proof.
  intros Hnd.
  destruct (create_stores_non_admin P req db) as [->|[doc [Hdb _]]];
    [exact Hnd|].
  destruct (fst (create P req db)) as [st b| |] eqn:Hres.
  - destruct (create_answered req db st b Hres)
      as (pw & _ & Hfree & Hrun & _).
    apply findOne_none in Hfree. rewrite Hrun. cbn [snd].
    unfold emails. rewrite fmap_app. cbn [fmap list_fmap].
    apply NoDup_app. split; [exact Hnd|]. split; [|apply NoDup_singleton].
    intros x Hx Hx'. apply list_elem_of_singleton in Hx'. subst x.
    unfold prop in Hx at 1. rewrite lookup_insert_ne in Hx by discriminate.
    rewrite lookup_insert_ne in Hx by discriminate.
    rewrite lookup_insert_eq in Hx. cbn in Hx. contradiction.
  - revert Hres Hdb. unfold create.
    repeat match goal with
           | |- context [match ?x with _ => _ end] => destruct x
           end; cbn [fst snd]; try discriminate;
      intros _ H; apply (f_equal length) in H;
      rewrite length_app in H; cbn in H; lia.
  - revert Hres Hdb. unfold create.
    repeat match goal with
           | |- context [match ?x with _ => _ end] => destruct x
           end; cbn [fst snd]; try discriminate;
      intros _ H; apply (f_equal length) in H;
      rewrite length_app in H; cbn in H; lia.
Qed.

(** A token is only given to a request whose password bcrypt accepts
    for the hash stored with the first user that has the address. *)
Theorem authenticate_needs_matching_password req db status b :
  fst (authenticate P req db) = Sent status b ->
  exists user pw h,
    findOne (prop (body req) "email") db = Some user /\
    prop (body req) "password" = VStr pw /\
    prop user "password" = VStr h /\
    bcrypt_compare P pw h = true /\
    status = 200%Z /\ b = TokenBody (createToken P user).
Proof.
  unfold authenticate.
  destruct (validate P _ _); [|discriminate].
  destruct (db_error P (FindOne _) db); [discriminate|].
  destruct (findOne _ db) as [user|] eqn:Hf; [|discriminate].
  destruct (prop (body req) "password") as [| | | |pw] eqn:Hpw;
    try discriminate.
  destruct (prop user "password") as [| | | |h] eqn:Hh; try discriminate.
  cbn [compare]. destruct (bcrypt_compare P pw h) eqn:Hc; [|discriminate].
  cbn [fst]. intros [= <- <-]. by exists user, pw, h.
Qed.

(** The operations that read leave the collection as it is. *)
Theorem reading_changes_nothing req db :
  snd (authenticate P req db) = db /\
  snd (getAllUsers P req db) = db /\
  snd (getAUser P req db) = db.
Proof.
  split; [|split].
  - unfold authenticate.
    destruct (validate P _ _); [|reflexivity].
    destruct (db_error P _ db); [reflexivity|].
    destruct (findOne _ db); [|reflexivity].
    destruct (compare P _ _) as [[|]|]; reflexivity.
  - unfold getAllUsers. destruct (db_error P _ db); reflexivity.
  - unfold getAUser. destruct (db_error P _ db); [reflexivity|].
    destruct (findOne _ db); reflexivity.
Qed.

(** Registering and then signing in with the same address and password
    gives the token that registration gave. *)
Theorem create_then_authenticate req login db status b :
  bcrypt_sound P ->
  fst (create P req db) = Sent status b ->
  prop (body login) "email" = prop (body req) "email" ->
  prop (body login) "password" = prop (body req) "password" ->
  validate P (body login) userAuthSchema = [] ->
  db_error P (FindOne (prop (body req) "email")) (snd (create P req db))
  = None ->
  fst (authenticate P login (snd (create P req db))) = Sent 200 b.
Proof.
  intros Hsound Hres Hmail Hpw Hv Hdb.
  destruct (create_answered req db status b Hres)
    as (pw & Hpw' & Hfree & Hrun & _ & ->).
  rewrite Hrun in *. cbn [snd] in *.
  set (doc := <["firstName" := _]> _) in *.
  assert (Hhash : doc !! "password"
                  = Some (VStr (bcrypt_hash P pw (BCRYPT_WORK_FACTOR P))))
    by (unfold doc; by simplify_map_eq).
  assert (Hdoc : doc !! "email" = Some (prop (body req) "email"))
    by (unfold doc; by simplify_map_eq).
  unfold authenticate.
  rewrite Hv, Hmail, Hpw, Hdb.
  rewrite findOne_app by exact Hfree.
  assert (Hd : has_email (prop (body req) "email") doc = true).
  { apply has_email_true. unfold prop at 1. by rewrite Hdoc. }
  rewrite Hd, Hpw'. unfold prop at 1. rewrite Hhash. cbn.
  by rewrite Hsound.
Qed.

(** An answered update rewrote the first user that has the address and
    no other: the collection is as long as before, and apart from
    [firstName], [lastName] and [password] every property of every user,
    so its address and its [isAdmin], is what it was. *)
Theorem updateAUser_touches_three_properties req db (k : string) :
  k ∉ ["firstName"; "lastName"; "password"] ->
  (fun d : Obj => d !! k) <$> snd (updateAUser P req db)
  = (fun d : Obj => d !! k) <$> db.
Proof.
  intros Hk. unfold updateAUser.
  destruct (validate P _ _); [|reflexivity].
  destruct (hash P _) as [hp|]; [|reflexivity].
  destruct (db_error P (UpdateOne _ _) db); [reflexivity|].
  match goal with
  | |- context [updateOne ?e ?c db] =>
      set (ch := c) in *; pose proof (updateOne_spec e ch db) as Hu
  end.
  assert (Hc : ch !! k = None).
  { rewrite !not_elem_of_cons in Hk. destruct Hk as (? & ? & ? & _).
    unfold ch. by simplify_map_eq. }
  destruct (findOne _ db).
  - destruct Hu as (pre & d & post & -> & _ & _ & ->).
    assert (Hsame : (fun d : Obj => d !! k) <$> (pre ++ (ch ∪ d) :: post)
                    = (fun d : Obj => d !! k) <$> (pre ++ d :: post)).
    { rewrite !fmap_app, !fmap_cons. do 2 f_equal.
      rewrite lookup_union_r by exact Hc. reflexivity. }
    cbn [Z.eqb]. destruct (db_error P _ _); [exact Hsame|].
    destruct (findOne _ _); exact Hsame.
  - rewrite Hu. reflexivity.
Qed.

(** An update for an address that no stored user has changes nothing
    and is not answered with a user. *)
Theorem updateAUser_unknown_address_unchanged req db :
  VStr (email_param req) ∉ emails db ->
  snd (updateAUser P req db) = db /\
  forall status b, fst (updateAUser P req db) <> Sent status b.
Proof.
  intros Hno. apply findOne_none in Hno. unfold updateAUser.
  destruct (validate P _ _); [|split; [reflexivity|discriminate]].
  destruct (hash P _) as [hp|]; [|split; [reflexivity|discriminate]].
  destruct (db_error P (UpdateOne _ _) db); [split; [reflexivity|discriminate]|].
  match goal with
  | |- context [updateOne ?e ?c db] => pose proof (updateOne_spec e c db) as Hu
  end.
  rewrite Hno in Hu. rewrite Hu. split; [reflexivity|discriminate].
Qed.

(** After an answered update, signing in with the address and the new
    password gives a token for the user that the update answered with. *)
Theorem updateAUser_then_authenticate req login db status b :
  bcrypt_sound P ->
  fst (updateAUser P req db) = Sent status b ->
  prop (body login) "email" = VStr (email_param req) ->
  prop (body login) "password" = prop (body req) "password" ->
  validate P (body login) userAuthSchema = [] ->
  db_error P (FindOne (VStr (email_param req))) (snd (updateAUser P req db))
  = None ->
  exists user,
    b = UserBody (without_password user) /\
    fst (authenticate P login (snd (updateAUser P req db)))
    = Sent 200 (TokenBody (createToken P user)).
Proof.
  intros Hsound Hres Hmail Hpw Hv _. revert Hres. unfold updateAUser.
  destruct (validate P (body req) userEditSchema); [|discriminate].
  destruct (prop (body req) "password") as [| | | |pw] eqn:Hpw';
    cbn [hash]; try discriminate.
  destruct (db_error P (UpdateOne _ _) db); [discriminate|].
  match goal with
  | |- context [updateOne ?e ?c db] =>
      set (ch := c) in *; pose proof (updateOne_spec e ch db) as Hu
  end.
  assert (Hc : ch !! "password"
               = Some (VStr (bcrypt_hash P pw (BCRYPT_WORK_FACTOR P))))
    by (unfold ch; by simplify_map_eq).
  assert (Hce : ch !! "email" = None) by (unfold ch; by simplify_map_eq).
  destruct (findOne _ db).
  2:{ rewrite Hu. cbn. discriminate. }
  destruct Hu as (pre & d & post & -> & Hpre & Hd & ->). cbn [Z.eqb].
  assert (Hfound : findOne (VStr (email_param req))
                     (pre ++ (ch ∪ d) :: post) = Some (ch ∪ d)).
  { apply findOne_none in Hpre. revert Hpre. unfold findOne.
    induction pre as [|x pre IH]; cbn.
    - intros _. replace (has_email _ _) with true; [reflexivity|].
      symmetry. apply has_email_true. unfold prop.
      rewrite lookup_union_r by exact Hce. exact Hd.
    - destruct (has_email _ x); [discriminate|]. exact IH. }
  destruct (db_error P (FindOne _) _) eqn:Hdb; [discriminate|].
  rewrite Hfound. cbn [fst snd]. intros [= _ <-].
  eexists. split; [reflexivity|].
  unfold authenticate. rewrite Hv, Hmail, Hpw, Hdb, Hfound.
  unfold prop at 1. rewrite lookup_union_l' by (by rewrite Hc).
  rewrite Hc. cbn. by rewrite Hsound.
Qed.

(** What [removeAUser] does when it answers. *)
Lemma removeAUser_answered req db status b :
  fst (removeAUser P req db) = Sent status b ->
  exists pre d post,
    db = pre ++ d :: post /\
    prop d "email" = VStr (email_param req) /\
    (VStr (email_param req) ∉ emails pre) /\
    snd (removeAUser P req db) = pre ++ post.
Proof.
  unfold removeAUser.
  pose proof (deleteOne_spec (VStr (email_param req)) db) as Hd.
  destruct (db_error P _ db); [discriminate|].
  destruct (findOne _ db) as [d|].
  - destruct Hd as (pre & post & -> & Hpre & Hmail & ->). cbn.
    intros _. by exists pre, d, post.
  - rewrite Hd. cbn. discriminate.
Qed.

(** An answered removal took out the first user that has the address
    and left the others as they were, in their order; a removal for an
    address that no stored user has changes nothing and is not
    answered. *)
Theorem removeAUser_takes_first req db :
  (forall status b,
     fst (removeAUser P req db) = Sent status b ->
     exists pre d post,
       db = pre ++ d :: post /\
       prop d "email" = VStr (email_param req) /\
       (VStr (email_param req) ∉ emails pre) /\
       snd (removeAUser P req db) = pre ++ post) /\
  (VStr (email_param req) ∉ emails db ->
   snd (removeAUser P req db) = db /\
   forall status b, fst (removeAUser P req db) <> Sent status b).
Proof.
  split; [apply removeAUser_answered|].
  unfold removeAUser.
  pose proof (deleteOne_spec (VStr (email_param req)) db) as Hd.
  intros Hno. apply findOne_none in Hno. rewrite Hno in Hd.
  destruct (db_error P _ db); [split; [reflexivity|discriminate]|].
  rewrite Hd. cbn. split; [reflexivity|discriminate].
Qed.

(** When the stored addresses are distinct, a user that was removed is
    not found afterwards. *)
Theorem removeAUser_then_getAUser req db status b :
  NoDup (emails db) ->
  fst (removeAUser P req db) = Sent status b ->
  db_error P (FindOne (VStr (email_param req))) (snd (removeAUser P req db))
  = None ->
  fst (getAUser P req (snd (removeAUser P req db))) = Next NotFoundError.
Proof.
  intros Hnd Hres Hdb.
  destruct (removeAUser_answered req db status b Hres)
    as (pre & d & post & -> & Hd & Hpre & Hafter).
  rewrite Hafter in *. unfold getAUser. rewrite Hdb.
  replace (findOne _ (pre ++ post)) with (@None Obj); [reflexivity|].
  symmetry. apply findOne_none.
  unfold emails in *. rewrite fmap_app, fmap_cons, Hd in Hnd.
  rewrite fmap_app. rewrite elem_of_app. intros [H|H]; [contradiction|].
  apply NoDup_app in Hnd as (_ & _ & Hnd). by inversion Hnd.
Qed.

End UserMore.

(** ** The controller on the trial platform *)

Lemma plain_bcrypt_sound : User.bcrypt_sound User.plain.
Proof. intros s. cbn. apply String.eqb_refl. Defined.


Lemma create_refuses_taken_address_witness :
  let again := <["email" := User.VStr "ada@example.org"]> User.registration in
  User.create User.plain {| User.body := again; User.email_param := "" |}
    [User.ada]
  = (User.Next (User.BadRequestError
                  (User.Text "User with this email already exists")),
     [User.ada]).
Proof.
  intros again.
  apply (create_refuses_taken_address User.plain
           {| User.body := again; User.email_param := "" |} [User.ada]).
  - reflexivity.
  - reflexivity.
  - vm_compute. apply list_elem_of_here.
Defined.

Lemma create_keeps_addresses_distinct_witness :
  let req := {| User.body := User.registration; User.email_param := "" |} in
  NoDup (User.emails (snd (User.create User.plain req [User.ada]))).
Proof.
  intros req. apply create_keeps_addresses_distinct.
  vm_compute. apply NoDup_singleton.
Defined.

Lemma authenticate_needs_matching_password_witness :
  let login :=
    {| User.body := <["email" := User.VStr "ada@example.org"]>
                    (<["password" := User.VStr "engine"]> ∅);
       User.email_param := "" |} in
  exists user pw h,
    User.findOne (User.VStr "ada@example.org") [User.ada] = Some user /\
    User.bcrypt_compare User.plain pw h = true.
Proof.
  intros login.
  destruct (authenticate_needs_matching_password User.plain login [User.ada]
              200%Z (User.TokenBody "token:ada@example.org"))
    as (user & pw & h & Hf & _ & _ & Hc & _); [reflexivity|].
  exists user, pw, h. split; [exact Hf|exact Hc].
Defined.

Lemma create_then_authenticate_witness :
  let req := {| User.body := User.registration; User.email_param := "" |} in
  fst (User.authenticate User.plain req
         (snd (User.create User.plain req [User.ada])))
  = User.Sent 200 (User.TokenBody "token:grace@example.org").
Proof.
  intros req.
  apply (create_then_authenticate User.plain req req [User.ada] 201%Z).
  - exact plain_bcrypt_sound.
  - reflexivity.
  - reflexivity.
  - reflexivity.
  - reflexivity.
  - reflexivity.
Defined.

Lemma updateAUser_touches_three_properties_witness :
  let req := {| User.body := <["isAdmin" := User.VBool false]> User.registration;
                User.email_param := "ada@example.org" |} in
  (fun d : User.Obj => d !! "isAdmin")
    <$> snd (User.updateAUser User.plain req [User.ada])
  = [Some (User.VBool true)].
Proof.
  intros req.
  rewrite (updateAUser_touches_three_properties User.plain req [User.ada]
             "isAdmin").
  - reflexivity.
  - rewrite !not_elem_of_cons. repeat split; try discriminate.
    apply not_elem_of_nil.
Defined.

Lemma updateAUser_unknown_address_unchanged_witness :
  let req := {| User.body := User.registration;
                User.email_param := "nobody@example.org" |} in
  snd (User.updateAUser User.plain req [User.ada]) = [User.ada].
Proof.
  intros req.
  apply (updateAUser_unknown_address_unchanged User.plain req [User.ada]).
  intros H. apply list_elem_of_singleton in H. vm_compute in H.
  discriminate H.
Defined.

Lemma updateAUser_then_authenticate_witness :
  let req := {| User.body := User.registration;
                User.email_param := "ada@example.org" |} in
  let login :=
    {| User.body := <["email" := User.VStr "ada@example.org"]>
                    (<["password" := User.VStr "cobol"]> ∅);
       User.email_param := "" |} in
  exists user,
    fst (User.authenticate User.plain login
           (snd (User.updateAUser User.plain req [User.ada])))
    = User.Sent 200 (User.TokenBody (User.createToken User.plain user)).
Proof.
  intros req login.
  destruct (updateAUser_then_authenticate User.plain req login [User.ada]
              200%Z
              (User.UserBody
                 (User.without_password
                    (<["firstName" := User.VStr "Grace"]>
                     (<["lastName" := User.VStr "Hopper"]>
                      (<["password" := User.VStr "$2b$cobol"]> User.ada))))))
    as (user & _ & Hauth).
  - exact plain_bcrypt_sound.
  - vm_compute. reflexivity.
  - reflexivity.
  - reflexivity.
  - reflexivity.
  - reflexivity.
  - exists user. exact Hauth.
Defined.

Lemma removeAUser_takes_first_witness :
  let req := {| User.body := ∅; User.email_param := "ada@example.org" |} in
  exists pre d post,
    [User.ada; User.registration] = pre ++ d :: post /\
    snd (User.removeAUser User.plain req [User.ada; User.registration])
    = pre ++ post.
Proof.
  intros req.
  destruct (proj1 (removeAUser_takes_first User.plain req
                     [User.ada; User.registration])
              200%Z (User.MessageBody "successfully deleted"))
    as (pre & d & post & Hdb & _ & _ & Hafter); [reflexivity|].
  exists pre, d, post. split; [exact Hdb|exact Hafter].
Defined.

Lemma removeAUser_then_getAUser_witness :
  let req := {| User.body := ∅; User.email_param := "ada@example.org" |} in
  fst (User.getAUser User.plain req
         (snd (User.removeAUser User.plain req [User.ada])))
  = User.Next User.NotFoundError.
Proof.
  intros req.
  apply (removeAUser_then_getAUser User.plain req [User.ada] 200%Z
           (User.MessageBody "successfully deleted")).
  - vm_compute. apply NoDup_singleton.
  - reflexivity.
  - reflexivity.
Defined.
